(** * Ship exhaust emission estimator: a shallow embedding of [compute.py]

    The Python module computes, per requested pollutant, the product
    [load factor * distance factor * power * corrected emission factor],
    every factor but the power being looked up in (or derived from) CSV
    reference tables read with pandas.

    Modelling choices.
    - Python floats and numpy [float64] scalars are IEEE binary64 numbers:
      Rocq's primitive floats, with their comparisons and arithmetic.
      Python's own division raises [ZeroDivisionError]; numpy's returns an
      infinity or a NaN.  Python's [**] goes through the C library's [pow],
      which is taken as a parameter of the development ([float_pow]).
    - Integers ([year], [rpm], the tier) are [Z].
    - A pandas [DataFrame] is a list of column names and a list of rows of
      cells; a cell is a string or a number.  The files under [data/] are a
      parameter ([fs]), as is Python's reading of a float out of a string
      ([parse_float]).
    - Exceptions and the lines written by [print] are explicit: a
      computation yields the events it printed and either a value or the
      exception it raised. *)

From Stdlib Require Import ZArith List String Ascii Bool Lia Floats Uint63.
Import ListNotations.
Local Open Scope string_scope.
Set Warnings "-inexact-float".

(** ** Values, exceptions, printed lines *)

(** A cell of a table, or a scalar argument compared with one. *)
Inductive value :=
| VStr (s : string)
| VNum (x : float).

(** Python's ordered [dict] from pollutant names to floats. *)
Definition dict := list (string * float).

Inductive exn :=
| ValueError (msg : string)
| FileNotFoundError (msg : string)
| KeyError (key : string)
| IndexError
| ZeroDivisionError
| OverflowError
| TypeError.

(** What [print] is given. *)
Inductive printed :=
| PInt (n : Z)
| PStr (s : string)
| PDict (d : dict)
| PArgs (lf : float) (A : option float) (P : float).

(** The lines of standard output, by the statement that writes them. *)
Inductive event :=
| WarnShipType (type : string)
| WarnBaseRow (pollutant : string) (tier : Z)
| ErrorLLAFile
| WarnLLAColumn (pollutant : string)
| WarnEFARow (pollutant : string)
| WarnLAFColumn (pollutant valve_type : string)
| WarnBuoy (buoy : value)
| Stdout (line : printed).

(** ** Computations that print and may raise *)

Inductive outcome (A : Type) :=
| Return (a : A)
| Raise (e : exn).
Arguments Return {A} a.
Arguments Raise {A} e.

Definition py (A : Type) : Type := list event * outcome A.

Definition ret {A} (a : A) : py A := ([], Return a).
Definition raise {A} (e : exn) : py A := ([], Raise e).
Definition emit (ev : event) : py unit := ([ev], Return tt).
Definition lift {A} (o : outcome A) : py A := ([], o).

Definition bind {A B} (m : py A) (k : A -> py B) : py B :=
  match m with
  | (out, Return a) => let (out', r) := k a in ((out ++ out')%list, r)
  | (out, Raise e) => (out, Raise e)
  end.

Arguments bind : simpl never.

Notation "x <- m ;; k" := (bind m (fun x => k))
  (at level 61, m at next level, right associativity).
Notation "m ;; k" := (bind m (fun _ => k))
  (at level 61, right associativity).

(** What was printed, and how the call ended. *)
Definition printed_by {A} (m : py A) : list event := fst m.
Definition result {A} (m : py A) : outcome A := snd m.

Definition raises {A} (m : py A) : Prop := exists e, result m = Raise e.
Definition returns {A} (m : py A) : Prop := exists a, result m = Return a.

(** ** Floats *)

Definition is_nan (x : float) : bool := negb (x =? x)%float.

(** A Python [int] as a float (exact below [2^53]). *)
Definition Z_to_float (n : Z) : float :=
  if (n <? 0)%Z then (- PrimFloat.of_uint63 (Uint63.of_Z (- n)))%float
  else PrimFloat.of_uint63 (Uint63.of_Z n).

(** Python's [x / y] on floats. *)
Definition truediv (x y : float) : py float :=
  if (y =? 0)%float then raise ZeroDivisionError else ret (x / y)%float.

(** Python's [==] between scalars: a string never equals a number. *)
Definition py_eq (a b : value) : bool :=
  match a, b with
  | VStr s, VStr t => String.eqb s t
  | VNum x, VNum y => (x =? y)%float
  | _, _ => false
  end.

(** ** Dictionaries *)

Fixpoint dict_get (d : dict) (k : string) : option float :=
  match d with
  | [] => None
  | (k', v) :: d' => if String.eqb k' k then Some v else dict_get d' k
  end.

(** [d[k] = v]: an existing key keeps its place. *)
Fixpoint dict_set (d : dict) (k : string) (v : float) : dict :=
  match d with
  | [] => [(k, v)]
  | (k', v') :: d' =>
      if String.eqb k' k then (k, v) :: d' else (k', v') :: dict_set d' k v
  end.

(** [d.get(k, default)] *)
Definition get (d : dict) (k : string) (default : float) : float :=
  match dict_get d k with
  | Some v => v
  | None => default
  end.

(** [d[k]] *)
Definition getitem (d : dict) (k : string) : py float :=
  match dict_get d k with
  | Some v => ret v
  | None => raise (KeyError k)
  end.

Definition keys (d : dict) : list string := map fst d.

(** [results = {}; for p in pollutants: results[p] = body(p); return results],
    the loop every function of the module is built around; [results] is the
    dictionary built so far. *)
Fixpoint for_pollutants (pollutants : list string) (body : string -> py float)
    (results : dict) : py dict :=
  match pollutants with
  | [] => ret results
  | p :: rest =>
      v <- body p ;;
      for_pollutants rest body (dict_set results p v)
  end.

(** ** Data frames *)

Record DataFrame := {
  columns : list string;
  rows : list (list value)
}.

Fixpoint col_index (name : string) (cols : list string) : option nat :=
  match cols with
  | [] => None
  | c :: cols' =>
      if String.eqb c name then Some O
      else option_map S (col_index name cols')
  end.

(** [name in df.columns] *)
Definition in_columns (name : string) (df : DataFrame) : bool :=
  match col_index name (columns df) with
  | Some _ => true
  | None => false
  end.

(** A cell the file leaves out reads as NaN. *)
Definition cell (i : nat) (row : list value) : value :=
  nth i row (VNum PrimFloat.nan).

(** [df[name]] *)
Definition series (df : DataFrame) (name : string) : py (list value) :=
  match col_index name (columns df) with
  | Some i => ret (map (cell i) (rows df))
  | None => raise (KeyError name)
  end.

Fixpoint mask_rows (rs : list (list value)) (mask : list bool) : list (list value) :=
  match rs, mask with
  | r :: rs', b :: mask' =>
      if b then r :: mask_rows rs' mask' else mask_rows rs' mask'
  | _, _ => []
  end.

(** [df[mask]] *)
Definition select (df : DataFrame) (mask : list bool) : DataFrame :=
  {| columns := columns df; rows := mask_rows (rows df) mask |}.

(** [df.empty] *)
Definition empty (df : DataFrame) : bool :=
  match rows df with
  | [] => true
  | _ => false
  end.

(** [df[name].values[0]] *)
Definition values0 (df : DataFrame) (name : string) : py value :=
  s <- series df name ;;
  match s with
  | v :: _ => ret v
  | [] => raise IndexError
  end.

(** [df.loc[idx, name]] under the default index [0 .. n-1]. *)
Definition loc (df : DataFrame) (idx : nat) (name : string) : py value :=
  s <- series df name ;;
  match nth_error s idx with
  | Some v => ret v
  | None => raise (KeyError name)
  end.

(** [df[name] = s] for a column that exists. *)
Fixpoint set_nth (i : nat) (v : value) (row : list value) : list value :=
  match i, row with
  | O, _ :: row' => v :: row'
  | S i', c :: row' => c :: set_nth i' v row'
  | O, [] => [v]
  | S i', [] => VNum PrimFloat.nan :: set_nth i' v []
  end.

Fixpoint set_cells (i : nat) (rs : list (list value)) (s : list value)
    : list (list value) :=
  match rs, s with
  | r :: rs', v :: s' => set_nth i v r :: set_cells i rs' s'
  | _, _ => []
  end.

Definition set_column (df : DataFrame) (name : string) (s : list value) : DataFrame :=
  match col_index name (columns df) with
  | Some i => {| columns := columns df; rows := set_cells i (rows df) s |}
  | None => df
  end.

(** The dtype of a column is [object] when it holds a string. *)
Definition dtype_object (s : list value) : bool :=
  existsb (fun v => match v with VStr _ => true | VNum _ => false end) s.

(** [s.str.replace('%', '')] on one string. *)
Fixpoint remove_percent (s : string) : string :=
  match s with
  | EmptyString => EmptyString
  | String c s' =>
      if Ascii.eqb c "%"%char then remove_percent s'
      else String c (remove_percent s')
  end.

(** ** Series of numbers *)

(** [s.max()]: NaN cells are skipped; NaN when nothing is left. *)
Fixpoint series_max (s : list float) : float :=
  match s with
  | [] => PrimFloat.nan
  | x :: s' =>
      let m := series_max s' in
      if is_nan x then m
      else if is_nan m then x
      else if (m <? x)%float then x else m
  end.

(** numpy's [argmin]: the first position of the least value, scanning from
    position [i] with the least value so far [best] at [best_i]. *)
Fixpoint argmin_from (best_i : nat) (best : float) (i : nat) (s : list float) : nat :=
  match s with
  | [] => best_i
  | x :: s' =>
      if (x <? best)%float then argmin_from i x (S i) s'
      else argmin_from best_i best (S i) s'
  end.

(** pandas fills NaN with [+inf] before it looks for the least value. *)
Definition fill_nan (x : float) : float :=
  if is_nan x then PrimFloat.infinity else x.

(** [s.idxmin()] under the default index: an empty or all-NaN series has no
    least value (an exception, whose class depends on the pandas version). *)
Definition idxmin (s : list float) : py nat :=
  match s with
  | [] => raise (ValueError "attempt to get argmin of an empty sequence")
  | x :: s' =>
      if forallb is_nan s then raise (ValueError "Encountered all NA values")
      else ret (argmin_from O (fill_nan x) 1 (map fill_nan s'))
  end.

(** [(s - x).abs()] *)
Definition abs_diff (s : list float) (x : float) : list float :=
  map (fun l => PrimFloat.abs (l - x)%float) s.

Section Program.

(** The files under [data/], as [pd.read_csv] returns them. *)
Variable fs : string -> option DataFrame.

(** Python's [float(s)] on a string: [None] when [s] is no float literal. *)
Variable parse_float : string -> option float.

(** Python's [x ** n] on a float: the C library's [pow], or [OverflowError]. *)
Variable float_pow : float -> Z -> outcome float.

(** [pd.read_csv(path)] inside [try: ... except FileNotFoundError: raise
    FileNotFoundError(msg)]. *)
Definition read_csv (path msg : string) : py DataFrame :=
  match fs path with
  | Some df => ret df
  | None => raise (FileNotFoundError msg)
  end.

(** [float(v)] *)
Definition py_float (v : value) : py float :=
  match v with
  | VNum x => ret x
  | VStr s =>
      match parse_float s with
      | Some x => ret x
      | None => raise (ValueError "could not convert string to float")
      end
  end.

(** [s / y] for a numpy scalar [s]: no exception on a zero divisor. *)
Definition np_truediv (s : value) (y : float) : py float :=
  match s with
  | VNum x => ret (x / y)%float
  | VStr _ => raise TypeError
  end.

(** [x * a] where [a] may be [None]. *)
Definition mul_opt (x : float) (a : option float) : py float :=
  match a with
  | Some y => ret (x * y)%float
  | None => raise TypeError
  end.

(** Lines 152-153 and 293-294: a [Load] column of dtype [object] has its
    percent signs removed and is read as floats. *)
Fixpoint astype_float (s : list value) : py (list float) :=
  match s with
  | [] => ret []
  | VNum x :: s' => xs <- astype_float s' ;; ret (x :: xs)
  | VStr t :: s' =>
      match parse_float (remove_percent t) with
      | Some x => xs <- astype_float s' ;; ret (x :: xs)
      | None => raise (ValueError "could not convert string to float")
      end
  end.

Definition numeric (s : list value) : list float :=
  map (fun v => match v with VNum x => x | VStr _ => PrimFloat.nan end) s.

Definition load_column (df : DataFrame) : py (DataFrame * list float) :=
  s <- series df "Load" ;;
  if dtype_object s then
    load <- astype_float s ;;
    ret (set_column df "Load" (map VNum load), load)
  else ret (df, numeric s).

(** *** compute_lf *)

Definition compute_lf (v_actual v_max : float) (engine type status : string)
    : py float :=
  if engine =? "main" then
    q <- truediv v_actual v_max ;;
    lift (float_pow q 3)
  else if engine =? "auxiliary" then
    lf_table <- read_csv "data/LF_auxiliary.csv" "File 'LF_auxiliary.csv' not found" ;;
    ship <- series lf_table "ship" ;;
    let row := select lf_table (map (fun c => py_eq c (VStr type)) ship) in
    if empty row then
      emit (WarnShipType type) ;;
      ret 0.5%float
    else if in_columns status row then
      lf <- values0 row status ;;
      py_float lf
    else
      raise (ValueError ("Status '" ++ status
                         ++ "' is invalid (only accept: trip, maneuver, mooring)"))
  else raise (ValueError "Engine must be 'main' or 'auxiliary'").

(** *** compute_ef_base *)

(** [match year: ...] of lines 67-77. *)
Definition match_year (year : Z) : py Z :=
  if (year <? 2000)%Z then ret 0%Z
  else if (2000 <=? year)%Z && (year <? 2009)%Z then ret 1%Z
  else if (2009 <=? year)%Z && (year <? 2016)%Z then ret 2%Z
  else if (year >=? 2016)%Z then ret 3%Z
  else raise (ValueError "Year is invalid").

(** [match rpm: ...] of lines 79-87. *)
Definition match_rpm (rpm : Z) : py string :=
  if (rpm <? 130)%Z then ret "SSD"
  else if (130 <=? rpm)%Z && (rpm <? 2000)%Z then ret "MSD"
  else if (rpm >=? 2000)%Z then ret "HSD"
  else raise (ValueError "RPM is invalid").

(** The body of the loop of lines 98-128. *)
Definition ef_base_of (ef_table : DataFrame) (engine engine_speed : string)
    (tier : Z) (pollutant : string) : py float :=
  exhaust <- series ef_table "exhaust" ;;
  tiers <- series ef_table "Tier" ;;
  let row :=
    select ef_table
      (map (fun '(e, t) => py_eq e (VStr pollutant) && py_eq t (VNum (Z_to_float tier)))
           (combine exhaust tiers)) in
  if empty row then
    emit (WarnBaseRow pollutant tier) ;;
    ret 0%float
  else if engine =? "main" then
    if engine_speed =? "SSD" then
      ef_value <- values0 row "main (SSD)" ;; py_float ef_value
    else if engine_speed =? "MSD" then
      ef_value <- values0 row "main(MSD)" ;; py_float ef_value
    else if engine_speed =? "HSD" then
      ef_value <- values0 row "main(HSD)" ;; py_float ef_value
    else
      raise (ValueError ("Engine speed '" ++ engine_speed
                         ++ "' is invalid (only accept: SSD, MSD)"))
  else if engine =? "auxiliary" then
    ef_value <- values0 row "auxiliary" ;; py_float ef_value
  else raise (ValueError "Engine must be 'main' or 'auxiliary'").

(** The arguments [engine_speed] and [tier] are assigned by the two [match]
    statements before they are read. *)
Definition compute_ef_base (pollutants : list string) (engine engine_speed : string)
    (year tier rpm : Z) : py dict :=
  tier <- match_year year ;;
  engine_speed <- match_rpm rpm ;;
  ef_table <- read_csv "data/EF_base.csv" "File 'EF_base.csv' not found" ;;
  for_pollutants pollutants (ef_base_of ef_table engine engine_speed tier) [].

(** *** compute_lla *)

(** The body of the loop of lines 162-177. *)
Definition lla_of (lla_table : DataFrame) (load : list float)
    (current_load_percent max_table_load : float) (pollutant : string) : py float :=
  let col_name := pollutant in
  if negb (in_columns col_name lla_table) then
    emit (WarnLLAColumn pollutant) ;;
    ret 1%float
  else if (max_table_load <? current_load_percent)%float then ret 1%float
  else
    nearest_idx <- idxmin (abs_diff load current_load_percent) ;;
    val <- loc lla_table nearest_idx col_name ;;
    py_float val.

Definition compute_lla (pollutants : list string) (lf : float) : py dict :=
  match fs "data/LLA_non_man.csv" with
  | None =>
      emit ErrorLLAFile ;;
      for_pollutants pollutants (fun _ => ret 1%float) []
  | Some lla_table =>
      r <- load_column lla_table ;;
      let '(lla_table, load) := r in
      let current_load_percent := (lf * 100)%float in
      let max_table_load := series_max load in
      for_pollutants pollutants
        (lla_of lla_table load current_load_percent max_table_load) []
  end.

(** *** compute_efa_non_man *)

(** The body of the loop of lines 216-229. *)
Definition efa_of (df : DataFrame) (valve_type : string) (p : string) : py float :=
  let table_name := p in
  pollutant <- series df "Pollutant" ;;
  let row := select df (map (fun c => py_eq c (VStr table_name)) pollutant) in
  if empty row then
    emit (WarnEFARow p) ;;
    ret 1%float
  else
    val <- values0 row valve_type ;;
    py_float val.

Definition compute_efa_non_man (pollutants : list string) (valve_type : string)
    : py dict :=
  df <- read_csv "data/EFA_non_man.csv" "File 'EFA_non_man.csv' not found" ;;
  if negb ((valve_type =? "SV") || (valve_type =? "C3")) then
    raise (ValueError ("Valve type '" ++ valve_type
             ++ "' is invalid. Use 'SV' (Slide Valve) or 'C3' (No Slide Valve)."))
  else for_pollutants pollutants (efa_of df valve_type) [].

(** *** compute_real_ef_non_man *)

(** The callers leave [engine_speed] and [tier] to their defaults. *)
Definition compute_real_ef_non_man (pollutants : list string) (lf : float)
    (engine : string) (year rpm : Z) (valve_type : string) : py dict :=
  base_efs <- compute_ef_base pollutants "main" "SSD" year 0 rpm ;;
  if (0.2 <? lf)%float || (engine =? "auxiliary") then
    real_ef <- compute_ef_base pollutants engine "SSD" year 0 rpm ;;
    emit (Stdout (PInt 1)) ;;
    emit (Stdout (PDict real_ef)) ;;
    ret real_ef
  else
    efas <- compute_efa_non_man pollutants valve_type ;;
    llas <- compute_lla pollutants lf ;;
    final_ef <-
      for_pollutants pollutants
        (fun p =>
           let b := get base_efs p 0 in
           let e := get efas p 1 in
           let l := get llas p 1 in
           ret (b * e * l)%float) [] ;;
    emit (Stdout (PInt 2)) ;;
    emit (Stdout (PDict final_ef)) ;;
    ret final_ef.

(** *** compute_laf_man *)

(** The body of the loop of lines 300-313. *)
Definition laf_of (df : DataFrame) (load : list float)
    (current_load_percent : float) (valve_type : string) (p : string) : py float :=
  let target_col := p in
  if negb (in_columns target_col df) then
    emit (WarnLAFColumn p valve_type) ;;
    ret 1%float
  else
    idx <- idxmin (abs_diff load current_load_percent) ;;
    val <- loc df idx target_col ;;
    py_float val.

(** Lines 280-290; the messages are written without their diacritics. *)
Definition laf_filename (valve_type : string) : py string :=
  if valve_type =? "C3" then ret "data/LAF_MAN_C3.csv"
  else if valve_type =? "SV" then ret "data/LAF_MAN_SV.csv"
  else raise (ValueError "Loai MAN khong hop le. Chi chap nhan 'C3' hoac 'SV'.").

Definition compute_laf_man (pollutants : list string) (lf : float)
    (valve_type : string) : py dict :=
  filename <- laf_filename valve_type ;;
  df <- read_csv filename ("Khong tim thay file '" ++ filename ++ "'") ;;
  r <- load_column df ;;
  let '(df, load) := r in
  let current_load_percent := (lf * 100)%float in
  for_pollutants pollutants (laf_of df load current_load_percent valve_type) [].

(** *** compute_real_ef_man *)

Definition compute_real_ef_man (pollutants : list string) (lf : float)
    (engine : string) (year rpm : Z) (valve_type : string) : py dict :=
  base_efs <- compute_ef_base pollutants engine "SSD" year 0 rpm ;;
  lafs <- compute_laf_man pollutants lf valve_type ;;
  final_ef <-
    for_pollutants pollutants
      (fun p =>
         let b := get base_efs p 0 in
         let l := get lafs p 1 in
         ret (b * l)%float) [] ;;
  emit (Stdout (PDict final_ef)) ;;
  ret final_ef.

(** *** compute_A *)

(** [pd.read_csv('data/buoy.csv')] stands outside any [try]: the exception is
    pandas' own.  A buoy that is not in the table yields [None]. *)
Definition compute_A (v_actual : float) (buoy : value) (status : string)
    : py (option float) :=
  s_table <- read_csv "data/buoy.csv"
               "[Errno 2] No such file or directory: 'data/buoy.csv'" ;;
  b <- series s_table "buoy" ;;
  let row := select s_table (map (fun c => py_eq c buoy) b) in
  if empty row then
    emit (WarnBuoy buoy) ;;
    ret None
  else
    S <- values0 row status ;;
    q <- np_truediv S v_actual ;;
    let A := (2 * q)%float in
    ret (Some A).

(** *** compute_E *)

(** [E = {}; for p in pollutants: E[p] = lf * A * P * ef[p]] *)
Definition emissions (pollutants : list string) (lf : float) (A : option float)
    (P : float) (ef : dict) : py dict :=
  for_pollutants pollutants
    (fun p =>
       lf_A <- mul_opt lf A ;;
       e <- getitem ef p ;;
       ret (lf_A * P * e)%float) [].

Definition compute_E (pollutants : list string) (v_actual v_max P : float)
    (engine type status : string) (buoy : value) (is_man : bool)
    (valve_type : string) (rpm year : Z) : py dict :=
  lf <- compute_lf v_actual v_max engine type status ;;
  A <- compute_A v_actual buoy status ;;
  if is_man then
    emit (Stdout (PStr "man")) ;;
    ef_man <- compute_real_ef_man pollutants lf engine year rpm valve_type ;;
    emissions pollutants lf A P ef_man
  else
    emit (Stdout (PStr "non")) ;;
    emit (Stdout (PArgs lf A P)) ;;
    ef_non_man <- compute_real_ef_non_man pollutants lf engine year rpm valve_type ;;
    emissions pollutants lf A P ef_non_man.

End Program.

(** ** Reference tables used in the examples

    Tables with the columns the code asks for.  The first row of
    [LF_auxiliary] is the one the module's self-test describes. *)
Module Fixture.

Definition num (x : float) : value := VNum x.

Definition LF_auxiliary : DataFrame :=
  {| columns := ["ship"; "trip"; "maneuver"; "mooring"];
     rows := [ [VStr "container"; num 0.8; num 0.6; num 0.2];
               [VStr "tanker"; num 0.7; num 0.5; num 0.25] ] |}.

Definition EF_base : DataFrame :=
  {| columns := ["exhaust"; "Tier"; "main (SSD)"; "main(MSD)"; "main(HSD)"; "auxiliary"];
     rows := [ [VStr "NOx"; num 0; num 18.1; num 14; num 11; num 14.7];
               [VStr "NOx"; num 1; num 17; num 13; num 10.5; num 13];
               [VStr "NOx"; num 2; num 15.3; num 11.2; num 9; num 11.2];
               [VStr "NOx"; num 3; num 3.6; num 2.8; num 2.5; num 2.8];
               [VStr "CO"; num 2; num 1.4; num 1.1; num 1; num 1.1] ] |}.

Definition LLA_non_man : DataFrame :=
  {| columns := ["Load"; "NOx"; "CO"];
     rows := [ [VStr "2%"; num 4.63; num 9.68];
               [VStr "10%"; num 1.22; num 2];
               [VStr "20%"; num 1; num 1] ] |}.

Definition EFA_non_man : DataFrame :=
  {| columns := ["Pollutant"; "SV"; "C3"];
     rows := [ [VStr "NOx"; num 1.5; num 1.25];
               [VStr "CO"; num 0.5; num 0.75] ] |}.

Definition LAF_MAN_C3 : DataFrame :=
  {| columns := ["Load"; "NOx"; "CO"];
     rows := [ [num 10; num 1.5; num 4];
               [num 12; num 1.25; num 3];
               [num 13; num 1.125; num 2.5];
               [num 50; num 1; num 1] ] |}.

Definition LAF_MAN_SV : DataFrame :=
  {| columns := ["Load"; "NOx"];
     rows := [ [num 10; num 2]; [num 50; num 1] ] |}.

Definition buoy : DataFrame :=
  {| columns := ["buoy"; "trip"; "maneuver"; "mooring"];
     rows := [ [num 0; num 12; num 6; num 0];
               [num 1; num 15; num 5; num 0] ] |}.

Definition table (path : string) : option DataFrame :=
  if path =? "data/LF_auxiliary.csv" then Some LF_auxiliary
  else if path =? "data/EF_base.csv" then Some EF_base
  else if path =? "data/LLA_non_man.csv" then Some LLA_non_man
  else if path =? "data/EFA_non_man.csv" then Some EFA_non_man
  else if path =? "data/LAF_MAN_C3.csv" then Some LAF_MAN_C3
  else if path =? "data/LAF_MAN_SV.csv" then Some LAF_MAN_SV
  else if path =? "data/buoy.csv" then Some buoy
  else None.

(** The same directory with one file removed. *)
Definition without (missing : string) (path : string) : option DataFrame :=
  if path =? missing then None else table path.

(** A reading of the percentages of [LLA_non_man], and of nothing else. *)
Definition parse (s : string) : option float :=
  if s =? "2" then Some 2%float
  else if s =? "10" then Some 10%float
  else if s =? "20" then Some 20%float
  else None.

(** [x ** 3] by two multiplications (exact on the inputs of the examples). *)
Definition pow (x : float) (n : Z) : outcome float :=
  if (n =? 3)%Z then Return (x * x * x)%float else Raise OverflowError.

End Fixture.

(** ** Vocabulary of the statements *)

(** Row [i] is nearest when no row is strictly closer. *)
Definition nearest (distance : list float) (i : nat) : Prop :=
  exists di, nth_error distance i = Some di
    /\ forall j dj, nth_error distance j = Some dj -> (dj <? di)%float = false.

(** The column of [EF_base.csv] an engine reads. *)
Definition base_column (engine engine_speed : string) : option string :=
  if engine =? "main" then
    if engine_speed =? "SSD" then Some "main (SSD)"
    else if engine_speed =? "MSD" then Some "main(MSD)"
    else if engine_speed =? "HSD" then Some "main(HSD)"
    else None
  else if engine =? "auxiliary" then Some "auxiliary"
  else None.

(** The rows of [EF_base.csv] for a pollutant at a tier, [i] and [j] being
    the positions of the columns [exhaust] and [Tier]. *)
Definition base_row (i j : nat) (pollutant : string) (tier : Z)
    (r : list value) : bool :=
  py_eq (cell i r) (VStr pollutant) && py_eq (cell j r) (VNum (Z_to_float tier)).

(** Every requested pollutant has an entry. *)
Definition covers (d : dict) (pollutants : list string) : Prop :=
  forall p, In p pollutants -> exists v, dict_get d p = Some v.

(** The distinct elements of a list, each at its first occurrence. *)
Fixpoint dedup (l : list string) : list string :=
  match l with
  | [] => []
  | x :: l' => x :: filter (fun y => negb (y =? x)) (dedup l')
  end.

(** Row [i] is the earliest of the nearest rows when it is strictly closer
    than every row before it (rows without a distance, NaN, set aside). *)
Definition earliest (distance : list float) (i : nat) : Prop :=
  forall j dj,
    j < i -> nth_error distance j = Some dj -> is_nan dj = false ->
    exists di, nth_error distance i = Some di /\ (di <? dj)%float = true.

(** The default that a warning says will be used: 0.5 for the load factor
    of an unknown vessel type (line 35), 0.85 for the distance factor of an
    unknown buoy (line 345). *)
Definition announced_default (ev : event) : option float :=
  match ev with
  | WarnShipType _ => Some 0.5%float
  | WarnBuoy _ => Some 0.85%float
  | _ => None
  end.

(** [t] is strictly above the greatest tabulated load: there is a load,
    and every load is strictly below [t] (missing loads, NaN, set aside). *)
Definition beyond_table (load : list float) (t : float) : Prop :=
  (exists l, In l load /\ is_nan l = false)
  /\ forall l, In l load -> is_nan l = false -> (l <? t)%float = true.

(** [t] is not above every tabulated load. *)
Definition within_table (load : list float) (t : float) : Prop :=
  exists l, In l load /\ is_nan l = false /\ (l <? t)%float = false.

(** Some row is at a finite distance. *)
Definition some_finite (distance : list float) : Prop :=
  exists j dj,
    nth_error distance j = Some dj /\ (dj <? PrimFloat.infinity)%float = true.

(** Row [i] has the least distance: a number, at most every other distance
    that is a number. *)
Definition least (distance : list float) (i : nat) : Prop :=
  exists di,
    nth_error distance i = Some di /\ is_nan di = false
    /\ forall j dj, nth_error distance j = Some dj -> is_nan dj = false ->
                    (di <=? dj)%float = true.

(** * Properties *)

(** ** The monad *)

Lemma result_bind {A B} (m : py A) (k : A -> py B) :
  result (bind m k)
  = match result m with
    | Return a => result (k a)
    | Raise e => Raise e
    end.
Proof.
  destruct m as [out [a|e]]; unfold bind; simpl; [|reflexivity].
  destruct (k a); reflexivity.
Qed.

Lemma printed_bind {A B} (m : py A) (k : A -> py B) :
  printed_by (bind m k)
  = match result m with
    | Return a => (printed_by m ++ printed_by (k a))%list
    | Raise e => printed_by m
    end.
Proof.
  destruct m as [out [a|e]]; unfold bind; simpl; [|reflexivity].
  destruct (k a); reflexivity.
Qed.

Lemma result_ret {A} (a : A) : result (ret a) = Return a.
Proof. reflexivity. Qed.

Lemma result_raise {A} (e : exn) : result (@raise A e) = Raise e.
Proof. reflexivity. Qed.

Lemma result_emit ev : result (emit ev) = Return tt.
Proof. reflexivity. Qed.

Lemma result_lift {A} (o : outcome A) : result (lift o) = o.
Proof. reflexivity. Qed.

Create Rewrite HintDb py.
#[export] Hint Rewrite @result_bind @result_ret @result_raise result_emit
  @result_lift : py.

Lemma returns_or_raises {A} (m : py A) : returns m \/ raises m.
Proof.
  unfold returns, raises. destruct (result m) as [a|e]; eauto.
Qed.

Lemma raises_not_returns {A} (m : py A) : raises m -> ~ returns m.
Proof. intros [e He] [a Ha]. congruence. Qed.

(** The outcome of a sequence of statements, statement by statement. *)
Ltac run := autorewrite with py; cbn beta iota.

(** ** Dictionaries *)

Lemma dict_get_set_same d k v : dict_get (dict_set d k v) k = Some v.
Proof.
  induction d as [|[k' v'] d IH]; simpl.
  - now rewrite String.eqb_refl.
  - destruct (String.eqb k' k) eqn:E; simpl.
    + now rewrite String.eqb_refl.
    + now rewrite E.
Qed.

Lemma dict_get_set_other d k v k' :
  k <> k' -> dict_get (dict_set d k v) k' = dict_get d k'.
Proof.
  intros N. induction d as [|[k0 v0] d IH]; simpl.
  - destruct (String.eqb_spec k k'); congruence.
  - destruct (String.eqb_spec k0 k) as [->|Nk]; simpl.
    + destruct (String.eqb_spec k k'); congruence.
    + now rewrite IH.
Qed.

Lemma get_some d k v default : dict_get d k = Some v -> get d k default = v.
Proof. unfold get. now intros ->. Qed.

(** ** The loop over the requested pollutants *)

(** When the loop returns, every requested pollutant has the value its own
    iteration computed, and no other key was added. *)
Lemma for_pollutants_result pollutants body results d :
  result (for_pollutants pollutants body results) = Return d ->
  (forall p, In p pollutants ->
     exists v, result (body p) = Return v /\ dict_get d p = Some v)
  /\ (forall p, ~ In p pollutants -> dict_get d p = dict_get results p).
Proof.
  revert results. induction pollutants as [|q rest IH]; intros results.
  - simpl. intros [= <-]. split; [intros p []|reflexivity].
  - simpl. rewrite result_bind.
    destruct (result (body q)) as [v|e] eqn:Eq; [|discriminate].
    intros H. destruct (IH _ H) as [Hin Hout]. split.
    + intros p [<-|Hp]; [|now apply Hin].
      destruct (in_dec string_dec q rest) as [Hq|Hq].
      * destruct (Hin q Hq) as (v' & Hv' & Hd). exists v'. now split.
      * exists v. split; [exact Eq|].
        rewrite (Hout q Hq). apply dict_get_set_same.
    + intros p Hp. rewrite Hout by tauto.
      apply dict_get_set_other. tauto.
Qed.

(** The loop returns as soon as every iteration does. *)
Lemma for_pollutants_returns pollutants body results :
  (forall p, In p pollutants -> returns (body p)) ->
  returns (for_pollutants pollutants body results).
Proof.
  revert results. induction pollutants as [|q rest IH]; intros results H.
  - now exists results.
  - destruct (H q (or_introl eq_refl)) as [v Hv].
    destruct (IH (dict_set results q v)) as [d Hd].
    + intros p Hp. apply H. now right.
    + exists d. simpl. rewrite result_bind, Hv. exact Hd.
Qed.

(** An iteration that raises ends the loop: nothing is returned. *)
Lemma for_pollutants_raises pollutants body results p :
  In p pollutants -> raises (body p) ->
  raises (for_pollutants pollutants body results).
Proof.
  intros Hp Hr.
  destruct (returns_or_raises (for_pollutants pollutants body results))
    as [[d Hd]|]; [|assumption].
  destruct (for_pollutants_result _ _ _ _ Hd) as [Hin _].
  destruct (Hin p Hp) as (v & Hv & _).
  exfalso. apply (raises_not_returns _ Hr). now exists v.
Qed.

(** ** The order of binary64 numbers *)

Lemma SFcompare_swap a b : SFcompare b a = option_map CompOpp (SFcompare a b).
Proof.
  destruct a as [sa|sa| |sa ma ea], b as [sb|sb| |sb mb eb]; simpl;
    try destruct sa; try destruct sb; simpl; try reflexivity;
    rewrite (Z.compare_antisym ea eb); destruct (ea ?= eb)%Z; simpl;
    try reflexivity;
    change (Pos.compare_cont Eq mb ma) with (Pos.compare mb ma);
    change (Pos.compare_cont Eq ma mb) with (Pos.compare ma mb);
    rewrite (Pos.compare_antisym ma mb);
    now rewrite ?CompOpp_involutive.
Qed.

Lemma SFcompare_refl a : SFcompare a a = Some Eq \/ a = S754_nan.
Proof.
  destruct a as [s|s| |s m e]; simpl; auto; left.
  - now destruct s.
  - rewrite Z.compare_refl.
    change (Pos.compare_cont Eq m m) with (Pos.compare m m).
    rewrite Pos.compare_refl. now destruct s.
Qed.

(** The comparison is that of a total order on the numbers that are not NaN. *)
Ltac SFcases :=
  repeat match goal with
         | s : bool |- _ => destruct s
         | |- context [(?x ?= ?y)%Z] => destruct (Z.compare_spec x y)
         | |- context [(?x ?= ?y)%positive] => destruct (Pos.compare_spec x y)
         end;
  simpl; try congruence; try lia.

Lemma SFltb_chain a b c :
  SFltb a b = false -> SFltb c b = true -> SFltb a c = false.
Proof.
  unfold SFltb.
  destruct a as [sa|sa| |sa ma ea], b as [sb|sb| |sb mb eb],
           c as [sc|sc| |sc mc ec]; simpl;
    change (Pos.compare_cont Eq) with Pos.compare; SFcases.
Qed.

Lemma SFltb_trans a b c :
  SFltb a b = true -> SFltb b c = true -> SFltb a c = true.
Proof.
  unfold SFltb.
  destruct a as [sa|sa| |sa ma ea], b as [sb|sb| |sb mb eb],
           c as [sc|sc| |sc mc ec]; simpl;
    change (Pos.compare_cont Eq) with Pos.compare; SFcases.
Qed.

Lemma leb_not_gt x y : (x <=? y)%float = true -> (y <? x)%float = false.
Proof.
  rewrite FloatAxioms.leb_spec, FloatAxioms.ltb_spec. unfold SFleb, SFltb.
  rewrite (SFcompare_swap (Prim2SF x) (Prim2SF y)).
  destruct (SFcompare (Prim2SF x) (Prim2SF y)) as [[]|]; simpl; congruence.
Qed.


Lemma ltb_asym x y : (x <? y)%float = true -> (y <? x)%float = false.
Proof.
  rewrite !FloatAxioms.ltb_spec. unfold SFltb.
  rewrite (SFcompare_swap (Prim2SF x) (Prim2SF y)).
  destruct (SFcompare (Prim2SF x) (Prim2SF y)) as [[]|]; simpl; congruence.
Qed.

Lemma ltb_irrefl x : (x <? x)%float = false.
Proof.
  rewrite FloatAxioms.ltb_spec. unfold SFltb.
  destruct (SFcompare_refl (Prim2SF x)) as [-> | ->]; reflexivity.
Qed.

Lemma ltb_trans x y z :
  (x <? y)%float = true -> (y <? z)%float = true -> (x <? z)%float = true.
Proof. rewrite !FloatAxioms.ltb_spec. apply SFltb_trans. Qed.

Lemma ltb_chain x y z :
  (x <? y)%float = false -> (z <? y)%float = true -> (x <? z)%float = false.
Proof. rewrite !FloatAxioms.ltb_spec. apply SFltb_chain. Qed.

Lemma is_nan_spec x : is_nan x = true -> Prim2SF x = S754_nan.
Proof.
  unfold is_nan. rewrite FloatAxioms.eqb_spec. unfold SFeqb.
  destruct (SFcompare_refl (Prim2SF x)) as [-> | ->]; [discriminate|reflexivity].
Qed.

Lemma nan_ltb_l x y : is_nan x = true -> (x <? y)%float = false.
Proof. intros H. rewrite FloatAxioms.ltb_spec, (is_nan_spec _ H). reflexivity. Qed.

Lemma nan_ltb_r x y : is_nan y = true -> (x <? y)%float = false.
Proof.
  intros H. rewrite FloatAxioms.ltb_spec, (is_nan_spec _ H). unfold SFltb.
  now destruct (Prim2SF x).
Qed.

(** ** The least value of a series *)

Lemma argmin_from_spec s : forall best_i best i,
  exists v,
    ((argmin_from best_i best i s = best_i /\ v = best)
     \/ (exists k, argmin_from best_i best i s = (i + k)%nat
                   /\ nth_error s k = Some v /\ (v <? best)%float = true))
    /\ forall y, In y s -> (y <? v)%float = false.
Proof.
  induction s as [|x s IH]; intros best_i best i; simpl.
  - exists best. split; [now left|intros y []].
  - destruct (x <? best)%float eqn:Ex.
    + destruct (IH i x (S i)) as (v & [[Hr ->]|(k & Hr & Hk & Hv)] & Hall).
      * exists x. split.
        -- right. exists 0%nat. rewrite Hr, Nat.add_0_r. auto.
        -- intros y [<-|Hy]; [apply ltb_irrefl|now apply Hall].
      * exists v. split.
        -- right. exists (S k). rewrite Hr, Nat.add_succ_r. simpl.
           repeat split; trivial. now apply ltb_trans with x.
        -- intros y [<-|Hy]; [now apply ltb_asym|now apply Hall].
    + destruct (IH best_i best (S i)) as (v & [[Hr ->]|(k & Hr & Hk & Hv)] & Hall).
      * exists best. split; [now left|].
        intros y [<-|Hy]; [exact Ex|now apply Hall].
      * exists v. split.
        -- right. exists (S k). rewrite Hr, Nat.add_succ_r. simpl. auto.
        -- intros y [<-|Hy]; [now apply ltb_chain with best|now apply Hall].
Qed.

Lemma fill_nan_ltb x y :
  (fill_nan x <? fill_nan y)%float = false -> (x <? y)%float = false.
Proof.
  unfold fill_nan.
  destruct (is_nan x) eqn:Nx; [intros _; now apply nan_ltb_l|].
  destruct (is_nan y) eqn:Ny; [intros _; now apply nan_ltb_r|trivial].
Qed.

(** [idxmin] answers with a row that no other row beats. *)
Lemma idxmin_nearest s i : result (idxmin s) = Return i -> nearest s i.
Proof.
  unfold idxmin. destruct s as [|x s]; [discriminate|].
  destruct (forallb is_nan (x :: s)); [discriminate|].
  simpl. intros [= <-].
  destruct (argmin_from_spec (map fill_nan s) 0 (fill_nan x) 1)
    as (v & Hr & Hall).
  assert (Hv : exists di, nth_error (x :: s)
                 (argmin_from 0 (fill_nan x) 1 (map fill_nan s)) = Some di
               /\ v = fill_nan di
               /\ (fill_nan x <? v)%float = false).
  { destruct Hr as [[-> ->]|(k & -> & Hk & Hlt)].
    - exists x. repeat split. apply ltb_irrefl.
    - simpl. rewrite nth_error_map in Hk.
      destruct (nth_error s k) as [d|]; [|discriminate].
      injection Hk as <-. exists d. repeat split. now apply ltb_asym. }
  destruct Hv as (di & Hi & -> & Hx).
  exists di. split; [exact Hi|].
  intros [|j] dj Hj; simpl in Hj.
  - injection Hj as <-. now apply fill_nan_ltb.
  - apply fill_nan_ltb, Hall, in_map. eapply nth_error_In, Hj.
Qed.

(** A series with a number in it has a least value. *)
Lemma idxmin_returns s :
  forallb is_nan s = false -> exists i, result (idxmin s) = Return i.
Proof.
  unfold idxmin. destruct s as [|x s]; [discriminate|].
  intros ->. eexists. reflexivity.
Qed.

Lemma bind_ret_l {A B} (a : A) (k : A -> py B) : bind (ret a) k = k a.
Proof. unfold bind, ret. now destruct (k a). Qed.

(** ** The classifier *)

Lemma match_year_cases year :
  match_year year
  = ret (if (year <? 2000)%Z then 0
         else if (year <? 2009)%Z then 1
         else if (year <? 2016)%Z then 2 else 3)%Z.
Proof.
  unfold match_year.
  destruct (Z.ltb_spec year 2000); [reflexivity|].
  destruct (Z.leb_spec 2000 year); [|lia].
  destruct (Z.ltb_spec year 2009); [reflexivity|].
  destruct (Z.leb_spec 2009 year); [|lia].
  destruct (Z.ltb_spec year 2016); [reflexivity|].
  simpl. destruct (Z.geb_spec year 2016); [reflexivity|lia].
Qed.

Lemma match_rpm_cases rpm :
  match_rpm rpm
  = ret (if (rpm <? 130)%Z then "SSD"
         else if (rpm <? 2000)%Z then "MSD" else "HSD").
Proof.
  unfold match_rpm.
  destruct (Z.ltb_spec rpm 130); [reflexivity|].
  destruct (Z.leb_spec 130 rpm); [|lia].
  destruct (Z.ltb_spec rpm 2000); [reflexivity|].
  simpl. destruct (Z.geb_spec rpm 2000); [reflexivity|lia].
Qed.

(** C8 -- Classifier totality.  For every integer [year] and every [rpm]
    (in particular every [rpm >= 0]) the two [match] statements assign
    exactly one tier among 0..3 and one speed class among SSD, MSD, HSD,
    print nothing and do not raise, so that [compute_ef_base] always goes
    on to read its table with that pair; the boundary years 2000, 2009,
    2016 give tiers 1, 2, 3 and the boundary speeds 130, 2000 give MSD, HSD. *)
Theorem classifier_total (year rpm : Z) :
  (exists! ts : Z * string,
      match_year year = ret (fst ts) /\ match_rpm rpm = ret (snd ts)
      /\ In (fst ts) [0; 1; 2; 3]%Z /\ In (snd ts) ["SSD"; "MSD"; "HSD"]
      /\ forall fs parse_float pollutants engine engine_speed tier,
           compute_ef_base fs parse_float pollutants engine engine_speed year tier rpm
           = (ef_table <- read_csv fs "data/EF_base.csv"
                            "File 'EF_base.csv' not found" ;;
              for_pollutants pollutants
                (ef_base_of parse_float ef_table engine (snd ts) (fst ts)) []))
  /\ match_year 2000 = ret 1%Z /\ match_year 2009 = ret 2%Z
  /\ match_year 2016 = ret 3%Z
  /\ match_rpm 130 = ret "MSD" /\ match_rpm 2000 = ret "HSD".
Proof.
  split; [|repeat split].
  pose proof (match_year_cases year) as Hy.
  pose proof (match_rpm_cases rpm) as Hr.
  set (t := (if (year <? 2000)%Z then 0
             else if (year <? 2009)%Z then 1
             else if (year <? 2016)%Z then 2 else 3)%Z) in Hy.
  set (s := if (rpm <? 130)%Z then "SSD"
            else if (rpm <? 2000)%Z then "MSD" else "HSD") in Hr.
  exists (t, s). split.
  - simpl. repeat split; trivial.
    + subst t. destruct (year <? 2000)%Z; [simpl; tauto|].
      destruct (year <? 2009)%Z; [simpl; tauto|].
      destruct (year <? 2016)%Z; simpl; tauto.
    + subst s. destruct (rpm <? 130)%Z; [simpl; tauto|].
      destruct (rpm <? 2000)%Z; simpl; tauto.
    + intros. unfold compute_ef_base. now rewrite Hy, Hr, !bind_ret_l.
  - intros [t' s'] (Hy' & Hr' & _). simpl in *.
    rewrite Hy in Hy'. rewrite Hr in Hr'.
    injection Hy' as ->. injection Hr' as ->. reflexivity.
Qed.

(** C7, as the code has it -- Every integer build year falls in a bracket:
    [year < 2000] (negative years included) gives tier 0, 2000-2008 tier 1,
    2009-2015 tier 2 and [year >= 2016] tier 3; the "Year is invalid" branch
    is never taken. *)
Theorem year_brackets (year : Z) :
  ((year < 2000)%Z -> match_year year = ret 0%Z)
  /\ ((2000 <= year <= 2008)%Z -> match_year year = ret 1%Z)
  /\ ((2009 <= year <= 2015)%Z -> match_year year = ret 2%Z)
  /\ ((2016 <= year)%Z -> match_year year = ret 3%Z)
  /\ ~ raises (match_year year).
Proof.
  rewrite match_year_cases.
  repeat split.
  - intros H. destruct (Z.ltb_spec year 2000); [reflexivity|lia].
  - intros H. destruct (Z.ltb_spec year 2000); [lia|].
    destruct (Z.ltb_spec year 2009); [reflexivity|lia].
  - intros H. destruct (Z.ltb_spec year 2000); [lia|].
    destruct (Z.ltb_spec year 2009); [lia|].
    destruct (Z.ltb_spec year 2016); [reflexivity|lia].
  - intros H. destruct (Z.ltb_spec year 2000); [lia|].
    destruct (Z.ltb_spec year 2009); [lia|].
    destruct (Z.ltb_spec year 2016); [lia|reflexivity].
  - intros [e He]. discriminate.
Qed.

(** C7, as stated, fails: a negative build year is not rejected.  It is
    classified as tier 0, and the base emission factor of that tier is
    returned. *)
Lemma negative_year_is_tier_0 :
  match_year (-1) = ret 0%Z
  /\ result (compute_ef_base Fixture.table Fixture.parse ["NOx"]
               "main" "SSD" (-1) 0 100)
     = Return [("NOx", 18.1%float)].
Proof. split; reflexivity. Qed.

(** ** Rows selected by a mask *)

Lemma mask_rows_filter rs (f : list value -> bool) :
  mask_rows rs (map f rs) = filter f rs.
Proof.
  induction rs as [|r rs IH]; simpl; [reflexivity|].
  rewrite IH. reflexivity.
Qed.

Lemma find_filter {A} (f : A -> bool) l : find f l = hd_error (filter f l).
Proof.
  induction l as [|a l IH]; simpl; [reflexivity|].
  now destruct (f a).
Qed.

Lemma series_cells df name i :
  col_index name (columns df) = Some i ->
  series df name = ret (map (cell i) (rows df)).
Proof. unfold series. now intros ->. Qed.

Lemma series_missing df name :
  in_columns name df = false -> series df name = raise (KeyError name).
Proof.
  unfold in_columns, series.
  destruct (col_index name (columns df)); [discriminate|reflexivity].
Qed.

Lemma in_columns_index df name :
  in_columns name df = true -> exists i, col_index name (columns df) = Some i.
Proof.
  unfold in_columns. destruct (col_index name (columns df)) as [i|];
    [eauto|discriminate].
Qed.

(** [df[mask].empty], for a mask computed row by row. *)
Lemma empty_select df f :
  empty (select df (map f (rows df)))
  = match find f (rows df) with Some _ => false | None => true end.
Proof.
  unfold empty, select. simpl.
  rewrite mask_rows_filter, find_filter.
  now destruct (filter f (rows df)).
Qed.

(** [df[mask][name].values[0]] is read in the first row the mask keeps. *)
Lemma values0_select df f name k :
  col_index name (columns df) = Some k ->
  values0 (select df (map f (rows df))) name
  = match find f (rows df) with
    | Some r => ret (cell k r)
    | None => raise IndexError
    end.
Proof.
  intros Hk. unfold values0, series, select. simpl.
  rewrite Hk, bind_ret_l, mask_rows_filter, find_filter.
  now destruct (filter f (rows df)).
Qed.

Lemma values0_select_missing df mask name :
  in_columns name df = false ->
  values0 (select df mask) name = raise (KeyError name).
Proof.
  intros H. unfold values0.
  rewrite series_missing; [reflexivity|exact H].
Qed.

(** ** compute_ef_base *)

Lemma base_mask rs i j pollutant tier :
  map (fun '(e, t) =>
         py_eq e (VStr pollutant) && py_eq t (VNum (Z_to_float tier)))
      (combine (map (cell i) rs) (map (cell j) rs))
  = map (base_row i j pollutant tier) rs.
Proof.
  induction rs as [|r rs IH]; simpl; [reflexivity|].
  now rewrite IH.
Qed.

(** One iteration of the loop of [compute_ef_base], row by row. *)
Lemma ef_base_of_row parse_float ef_table engine engine_speed tier pollutant i j :
  col_index "exhaust" (columns ef_table) = Some i ->
  col_index "Tier" (columns ef_table) = Some j ->
  ef_base_of parse_float ef_table engine engine_speed tier pollutant
  = match find (base_row i j pollutant tier) (rows ef_table) with
    | None => emit (WarnBaseRow pollutant tier) ;; ret 0%float
    | Some r =>
        match base_column engine engine_speed with
        | Some column =>
            match col_index column (columns ef_table) with
            | Some k => py_float parse_float (cell k r)
            | None => raise (KeyError column)
            end
        | None =>
            if engine =? "main" then
              raise (ValueError ("Engine speed '" ++ engine_speed
                                 ++ "' is invalid (only accept: SSD, MSD)"))
            else raise (ValueError "Engine must be 'main' or 'auxiliary'")
        end
    end.
Proof.
  intros Hi Hj. unfold ef_base_of.
  rewrite (series_cells _ _ _ Hi), (series_cells _ _ _ Hj), !bind_ret_l.
  rewrite base_mask, empty_select.
  set (f := base_row i j pollutant tier).
  destruct (find f (rows ef_table)) as [r|] eqn:Ef; [|reflexivity].
  unfold base_column.
  assert (V : forall column,
             bind (values0 (select ef_table (map f (rows ef_table))) column)
                  (fun ef_value => py_float parse_float ef_value)
             = match col_index column (columns ef_table) with
               | Some k => py_float parse_float (cell k r)
               | None => raise (KeyError column)
               end).
  { intros column.
    destruct (col_index column (columns ef_table)) as [k|] eqn:Ek.
    - rewrite (values0_select _ _ _ _ Ek), Ef. apply bind_ret_l.
    - rewrite values0_select_missing; [reflexivity|].
      unfold in_columns. now rewrite Ek. }
  destruct (engine =? "main").
  - destruct (engine_speed =? "SSD"); [apply V|].
    destruct (engine_speed =? "MSD"); [apply V|].
    destruct (engine_speed =? "HSD"); [apply V|reflexivity].
  - destruct (engine =? "auxiliary"); [apply V|reflexivity].
Qed.

Section BaseEmission.

Variable fs : string -> option DataFrame.
Variable parse_float : string -> option float.

(** C4, as the code has it -- The base-emission lookup classifies by build
    year and rpm.  The arguments [tier] and [engine_speed] have no effect:
    two calls that differ only in them are the same call.  When the call
    returns, each requested pollutant [p] has the value of the first table
    row matching [(p, t)], [t] being the tier of the build year, in the
    column selected by the engine role and by the speed class [s] of the
    rpm. *)
Theorem ef_base_classifies_by_year_and_rpm
    pollutants engine engine_speed year tier rpm :
  (forall engine_speed' tier',
      compute_ef_base fs parse_float pollutants engine engine_speed' year tier' rpm
      = compute_ef_base fs parse_float pollutants engine engine_speed year tier rpm)
  /\ forall ef_table i j t s column k d p r,
       fs "data/EF_base.csv" = Some ef_table ->
       col_index "exhaust" (columns ef_table) = Some i ->
       col_index "Tier" (columns ef_table) = Some j ->
       match_year year = ret t ->
       match_rpm rpm = ret s ->
       base_column engine s = Some column ->
       col_index column (columns ef_table) = Some k ->
       result (compute_ef_base fs parse_float pollutants engine engine_speed
                 year tier rpm) = Return d ->
       In p pollutants ->
       find (base_row i j p t) (rows ef_table) = Some r ->
       exists v, result (py_float parse_float (cell k r)) = Return v
                 /\ dict_get d p = Some v.
Proof.
  split; [reflexivity|].
  intros ef_table i j t s column k d p r Hfs Hi Hj Ht Hs Hc Hk Hd Hp Hr.
  unfold compute_ef_base, read_csv in Hd.
  rewrite Ht, Hs, Hfs, !bind_ret_l in Hd.
  destruct (for_pollutants_result _ _ _ _ Hd) as [Hin _].
  destruct (Hin p Hp) as (v & Hv & Hget).
  exists v. split; [|exact Hget].
  rewrite (ef_base_of_row _ _ _ _ _ _ _ _ Hi Hj), Hr, Hc, Hk in Hv.
  exact Hv.
Qed.

End BaseEmission.

(** On the reference tables: a 2010 engine at 100 rpm reads the row
    [(NOx, 2)] in the column [main (SSD)], whatever was passed as tier and
    speed class. *)
Lemma ef_base_classifies_on_fixture :
  exists v, result (py_float Fixture.parse (VNum 15.3)) = Return v
            /\ dict_get [("NOx", 15.3%float)] "NOx" = Some v.
Proof.
  destruct (ef_base_classifies_by_year_and_rpm Fixture.table Fixture.parse
              ["NOx"] "main" "HSD" 2010 0 100) as [_ H].
  apply (H Fixture.EF_base 0%nat 1%nat 2%Z "SSD" "main (SSD)" 2%nat
           [("NOx", 15.3%float)] "NOx"
           [VStr "NOx"; VNum 2; VNum 15.3; VNum 11.2; VNum 9; VNum 11.2]);
    try reflexivity.
  left. reflexivity.
Defined.

(** C4, as stated, fails: called with tier 0 and speed class HSD for a 2010
    engine at 100 rpm, the lookup does not return the value 11 of the row
    [(NOx, 0)] in the column [main(HSD)] but the value 15.3 of the row
    [(NOx, 2)] in the column [main (SSD)], as it does when called with tier 3
    and speed class SSD. *)
Lemma ef_base_overrides_its_arguments :
  result (compute_ef_base Fixture.table Fixture.parse ["NOx"]
            "main" "HSD" 2010 0 100)
  = Return [("NOx", 15.3%float)]
  /\ result (for_pollutants ["NOx"]
               (ef_base_of Fixture.parse Fixture.EF_base "main" "HSD" 0) [])
     = Return [("NOx", 11%float)]
  /\ compute_ef_base Fixture.table Fixture.parse ["NOx"] "main" "HSD" 2010 0 100
     = compute_ef_base Fixture.table Fixture.parse ["NOx"] "main" "SSD" 2010 3 100.
Proof. repeat split. Qed.

(** ** compute_lf *)

Section LoadFactor.

Variable fs : string -> option DataFrame.
Variable parse_float : string -> option float.
Variable float_pow : float -> Z -> outcome float.

(** The auxiliary branch, row by row: [i] is the position of the column
    [ship]. *)
Lemma compute_lf_auxiliary lf_table i v_actual v_max type status :
  fs "data/LF_auxiliary.csv" = Some lf_table ->
  col_index "ship" (columns lf_table) = Some i ->
  compute_lf fs parse_float float_pow v_actual v_max "auxiliary" type status
  = match find (fun r => py_eq (cell i r) (VStr type)) (rows lf_table) with
    | None => emit (WarnShipType type) ;; ret 0.5%float
    | Some r =>
        match col_index status (columns lf_table) with
        | Some k => py_float parse_float (cell k r)
        | None =>
            raise (ValueError ("Status '" ++ status
                     ++ "' is invalid (only accept: trip, maneuver, mooring)"))
        end
    end.
Proof.
  intros Hfs Hi. unfold compute_lf, read_csv. simpl.
  rewrite Hfs, bind_ret_l, (series_cells _ _ _ Hi), bind_ret_l, map_map.
  rewrite empty_select.
  destruct (find _ (rows lf_table)) as [r|] eqn:Ef; [|reflexivity].
  unfold in_columns. simpl.
  destruct (col_index status (columns lf_table)) as [k|] eqn:Ek; [|reflexivity].
  rewrite (values0_select _ _ _ _ Ek), Ef. apply bind_ret_l.
Qed.

(** C9, as the code has it -- Auxiliary load factor.  With the table read
    and [i] the position of its column [ship]: when a row matches the vessel
    type and the status is a column holding a number there, that number is
    returned and nothing is printed; when no row matches the vessel type,
    0.5 is returned after a warning, whatever the status; when a row matches
    and the status is no column of the table, a [ValueError] is raised. *)
Theorem auxiliary_load_factor lf_table i v_actual v_max type status :
  fs "data/LF_auxiliary.csv" = Some lf_table ->
  col_index "ship" (columns lf_table) = Some i ->
  let lf := compute_lf fs parse_float float_pow v_actual v_max
              "auxiliary" type status in
  let vessel := find (fun r => py_eq (cell i r) (VStr type)) (rows lf_table) in
  (forall r k x,
      vessel = Some r -> col_index status (columns lf_table) = Some k ->
      cell k r = VNum x -> lf = ret x)
  /\ (vessel = None -> lf = ([WarnShipType type], Return 0.5%float))
  /\ (forall r,
        vessel = Some r -> in_columns status lf_table = false ->
        lf = raise (ValueError ("Status '" ++ status
                      ++ "' is invalid (only accept: trip, maneuver, mooring)"))).
Proof.
  intros Hfs Hi lf vessel. subst lf.
  rewrite (compute_lf_auxiliary _ _ _ _ _ _ Hfs Hi). fold vessel.
  repeat split.
  - intros r k x -> -> Hx. now rewrite Hx.
  - now intros ->.
  - intros r -> Hs. unfold in_columns in Hs.
    destruct (col_index status (columns lf_table)); [discriminate|reflexivity].
Qed.

End LoadFactor.

(** On the table of the module's self-test: a container ship on a trip has
    load factor 0.8, an unknown vessel type has 0.5 with a warning, and the
    status [invalid] raises for a container ship. *)
Lemma auxiliary_load_factor_on_fixture :
  compute_lf Fixture.table Fixture.parse Fixture.pow 10 20
    "auxiliary" "container" "trip" = ret 0.8%float
  /\ compute_lf Fixture.table Fixture.parse Fixture.pow 10 20
       "auxiliary" "bulk_carrier" "trip"
     = ([WarnShipType "bulk_carrier"], Return 0.5%float)
  /\ compute_lf Fixture.table Fixture.parse Fixture.pow 10 20
       "auxiliary" "container" "invalid"
     = raise (ValueError
         "Status 'invalid' is invalid (only accept: trip, maneuver, mooring)").
Proof.
  split; [|split].
  - refine (proj1 (auxiliary_load_factor Fixture.table Fixture.parse Fixture.pow
                     Fixture.LF_auxiliary 0 10 20 "container" "trip"
                     eq_refl eq_refl)
                  [VStr "container"; VNum 0.8; VNum 0.6; VNum 0.2] 1%nat 0.8%float
                  eq_refl eq_refl eq_refl).
  - refine (proj1 (proj2 (auxiliary_load_factor Fixture.table Fixture.parse
                            Fixture.pow Fixture.LF_auxiliary 0 10 20
                            "bulk_carrier" "trip" eq_refl eq_refl)) eq_refl).
  - refine (proj2 (proj2 (auxiliary_load_factor Fixture.table Fixture.parse
                            Fixture.pow Fixture.LF_auxiliary 0 10 20
                            "container" "invalid" eq_refl eq_refl))
                  [VStr "container"; VNum 0.8; VNum 0.6; VNum 0.2]
                  eq_refl eq_refl).
Defined.

(** C9, as stated, fails: a status outside trip, maneuver, mooring does not
    raise when the vessel type is absent from the table; the default 0.5 is
    returned with the warning. *)
Lemma invalid_status_of_unknown_vessel_returns_default :
  compute_lf Fixture.table Fixture.parse Fixture.pow 10 20
    "auxiliary" "bulk_carrier" "invalid"
  = ([WarnShipType "bulk_carrier"], Return 0.5%float).
Proof. reflexivity. Qed.

(** ** compute_A and the estimator *)

Section Distance.

Variable fs : string -> option DataFrame.
Variable parse_float : string -> option float.
Variable float_pow : float -> Z -> outcome float.

(** [compute_A], row by row: [i] is the position of the column [buoy]. *)
Lemma compute_A_rows s_table i v_actual buoy status :
  fs "data/buoy.csv" = Some s_table ->
  col_index "buoy" (columns s_table) = Some i ->
  compute_A fs v_actual buoy status
  = match find (fun r => py_eq (cell i r) buoy) (rows s_table) with
    | None => emit (WarnBuoy buoy) ;; ret None
    | Some r =>
        match col_index status (columns s_table) with
        | Some k =>
            q <- np_truediv (cell k r) v_actual ;;
            ret (Some (2 * q)%float)
        | None => raise (KeyError status)
        end
    end.
Proof.
  intros Hfs Hi. unfold compute_A, read_csv.
  rewrite Hfs, bind_ret_l, (series_cells _ _ _ Hi), bind_ret_l, map_map.
  rewrite empty_select.
  destruct (find _ (rows s_table)) as [r|] eqn:Ef; [|reflexivity].
  destruct (col_index status (columns s_table)) as [k|] eqn:Ek.
  - rewrite (values0_select _ _ _ _ Ek), Ef. now rewrite bind_ret_l.
  - rewrite values0_select_missing; [reflexivity|].
    unfold in_columns. now rewrite Ek.
Qed.

(** The final multiplication cannot be done with [None]. *)
Lemma emissions_without_distance p pollutants lf P ef :
  result (emissions (p :: pollutants) lf None P ef) = Raise TypeError.
Proof. reflexivity. Qed.

(** What the code does with the buoy.  With the table read and [i] the
    position of its column [buoy]: for a buoy that no row matches,
    [compute_A] prints its warning and returns [None], and an estimate for at
    least one pollutant then raises and returns no result; for a buoy that a
    row matches, with a number [S] in the status column, the factor is
    [2 * (S / v_actual)] in binary64 arithmetic, for every [v_actual] (no
    exception is raised for a zero speed). *)
Lemma distance_factor s_table i v_actual buoy status :
  fs "data/buoy.csv" = Some s_table ->
  col_index "buoy" (columns s_table) = Some i ->
  let station := find (fun r => py_eq (cell i r) buoy) (rows s_table) in
  (station = None ->
     compute_A fs v_actual buoy status = ([WarnBuoy buoy], Return None)
     /\ forall p pollutants v_max P engine type is_man valve_type rpm year,
          raises (compute_E fs parse_float float_pow (p :: pollutants)
                    v_actual v_max P engine type status buoy is_man
                    valve_type rpm year))
  /\ (forall r k S,
        station = Some r -> col_index status (columns s_table) = Some k ->
        cell k r = VNum S ->
        compute_A fs v_actual buoy status = ret (Some (2 * (S / v_actual))%float)).
Proof.
  intros Hfs Hi station.
  pose proof (compute_A_rows _ _ v_actual buoy status Hfs Hi) as HA.
  fold station in HA. split.
  - intros Hn. rewrite Hn in HA. split; [exact HA|].
    intros. unfold raises, compute_E.
    rewrite result_bind.
    destruct (result (compute_lf _ _ _ _ _ _ _ _)) as [lf|e]; [|eauto].
    rewrite result_bind, HA. run.
    destruct is_man; run.
    + destruct (result (compute_real_ef_man _ _ _ _ _ _ _ _)) as [ef|e];
        [|eauto].
      rewrite emissions_without_distance. eauto.
    + destruct (result (compute_real_ef_non_man _ _ _ _ _ _ _ _)) as [ef|e];
        [|eauto].
      rewrite emissions_without_distance. eauto.
  - intros r k S Hr Hk HS. rewrite Hr, Hk, HS in HA. exact HA.
Qed.

End Distance.

(** On the reference tables: buoy 9 is not tabulated, so the factor is [None]
    and the estimate for NOx raises; buoy 0 on a trip at speed 10 gives
    [2 * (12 / 10)]. *)
Lemma distance_factor_on_fixture :
  (compute_A Fixture.table 10 (VNum 9) "trip" = ([WarnBuoy (VNum 9)], Return None)
   /\ raises (compute_E Fixture.table Fixture.parse Fixture.pow ["NOx"]
                10 20 1000 "main" "container" "trip" (VNum 9) true "C3" 100 2010))
  /\ compute_A Fixture.table 10 (VNum 0) "trip" = ret (Some (2 * (12 / 10))%float).
Proof.
  split.
  - destruct (proj1 (distance_factor Fixture.table Fixture.parse Fixture.pow
                       Fixture.buoy 0 10 (VNum 9) "trip" eq_refl eq_refl)
                    eq_refl) as [HA HE].
    split; [exact HA|].
    exact (HE "NOx" [] 20%float 1000%float "main" "container" true "C3" 100%Z 2010%Z).
  - exact (proj2 (distance_factor Fixture.table Fixture.parse Fixture.pow
                    Fixture.buoy 0 10 (VNum 0) "trip" eq_refl eq_refl)
                 [VNum 0; VNum 12; VNum 6; VNum 0] 1%nat 12%float
                 eq_refl eq_refl eq_refl).
Defined.

(** C6 -- The code does not keep the contract of the distance factor for a
    buoy that is not tabulated.  On the reference tables, for buoy 9:
    [compute_A] prints the warning of line 345, which announces the default
    A = 0.85, and returns [None] ([compute_lf], for an unknown vessel type,
    returns the 0.5 that its warning announces); the estimate is not stopped
    there: with no pollutant requested it returns the empty result, and with
    NOx requested it ends in the [TypeError] of the product [lf * A].  Nor is
    a zero speed a division error: for buoy 0 the factor is infinite. *)
Theorem unknown_buoy_default_is_announced_not_used :
  compute_A Fixture.table 10 (VNum 9) "trip" = ([WarnBuoy (VNum 9)], Return None)
  /\ announced_default (WarnBuoy (VNum 9)) = Some 0.85%float
  /\ compute_lf Fixture.table Fixture.parse Fixture.pow 10 20
       "auxiliary" "bulk_carrier" "trip"
     = ([WarnShipType "bulk_carrier"], Return 0.5%float)
  /\ announced_default (WarnShipType "bulk_carrier") = Some 0.5%float
  /\ result (compute_E Fixture.table Fixture.parse Fixture.pow []
               10 20 1000 "main" "container" "trip" (VNum 9) true "C3" 100 2010)
     = Return []
  /\ result (compute_E Fixture.table Fixture.parse Fixture.pow ["NOx"]
               10 20 1000 "main" "container" "trip" (VNum 9) true "C3" 100 2010)
     = Raise TypeError
  /\ compute_A Fixture.table 0 (VNum 0) "trip" = ret (Some PrimFloat.infinity).
Proof. repeat split. Qed.

(** ** Missing table files *)

Lemma raises_bind {A B} (m : py A) (k : A -> py B) :
  (forall a, result m = Return a -> raises (k a)) -> raises (bind m k).
Proof.
  intros H. unfold raises. rewrite result_bind.
  destruct (result m) as [a|e]; [now apply H|eauto].
Qed.

Lemma raises_bind_l {A B} (m : py A) (k : A -> py B) :
  raises m -> raises (bind m k).
Proof.
  intros [e He]. exists e. now rewrite result_bind, He.
Qed.

Lemma raises_raise {A} (e : exn) : raises (@raise A e).
Proof. now exists e. Qed.

(** A loop whose every iteration returns the same value. *)
Lemma for_pollutants_constant pollutants v :
  exists d,
    result (for_pollutants pollutants (fun _ => ret v) []) = Return d
    /\ (forall p, In p pollutants -> dict_get d p = Some v)
    /\ (forall p, ~ In p pollutants -> dict_get d p = None).
Proof.
  destruct (for_pollutants_returns pollutants (fun _ => ret v) [])
    as [d Hd]; [intros; now exists v|].
  exists d. split; [exact Hd|].
  destruct (for_pollutants_result _ _ _ _ Hd) as [Hin Hout]. split.
  - intros p Hp. destruct (Hin p Hp) as (v' & [= <-] & Hg). exact Hg.
  - exact Hout.
Qed.

Section MissingTables.

Variable fs : string -> option DataFrame.
Variable parse_float : string -> option float.
Variable float_pow : float -> Z -> outcome float.

Lemma compute_ef_base_missing pollutants engine engine_speed year tier rpm :
  fs "data/EF_base.csv" = None ->
  compute_ef_base fs parse_float pollutants engine engine_speed year tier rpm
  = raise (FileNotFoundError "File 'EF_base.csv' not found").
Proof.
  intros H. unfold compute_ef_base, read_csv.
  rewrite match_year_cases, match_rpm_cases, !bind_ret_l, H. reflexivity.
Qed.

(** C5, as the code has it -- A missing table file is fatal for the
    auxiliary load factor, the base emission factor, the emission-factor
    adjustment and the load-adjustment factor: the operation raises
    [FileNotFoundError] and an estimate that consults the table raises and
    returns no result.  A missing low-load-adjustment file is not fatal:
    [compute_lla] prints an error line and returns the multiplier 1.0 for
    every requested pollutant. *)
Theorem missing_table_files :
  (fs "data/LF_auxiliary.csv" = None ->
   forall v_actual v_max type status,
     compute_lf fs parse_float float_pow v_actual v_max "auxiliary" type status
     = raise (FileNotFoundError "File 'LF_auxiliary.csv' not found")
     /\ forall pollutants P buoy is_man valve_type rpm year,
          result (compute_E fs parse_float float_pow pollutants v_actual v_max P
                    "auxiliary" type status buoy is_man valve_type rpm year)
          = Raise (FileNotFoundError "File 'LF_auxiliary.csv' not found"))
  /\ (fs "data/EF_base.csv" = None ->
      forall pollutants engine year rpm,
        (forall engine_speed tier,
           compute_ef_base fs parse_float pollutants engine engine_speed
             year tier rpm
           = raise (FileNotFoundError "File 'EF_base.csv' not found"))
        /\ forall v_actual v_max P type status buoy is_man valve_type,
             raises (compute_E fs parse_float float_pow pollutants v_actual
                       v_max P engine type status buoy is_man valve_type
                       rpm year))
  /\ (fs "data/EFA_non_man.csv" = None ->
      forall pollutants valve_type,
        compute_efa_non_man fs parse_float pollutants valve_type
        = raise (FileNotFoundError "File 'EFA_non_man.csv' not found")
        /\ forall lf engine year rpm,
             (0.2 <? lf)%float || (engine =? "auxiliary") = false ->
             raises (compute_real_ef_non_man fs parse_float pollutants lf
                       engine year rpm valve_type))
  /\ (forall valve_type filename,
        laf_filename valve_type = ret filename -> fs filename = None ->
        forall pollutants lf,
          compute_laf_man fs parse_float pollutants lf valve_type
          = raise (FileNotFoundError ("Khong tim thay file '" ++ filename ++ "'"))
          /\ forall engine year rpm,
               raises (compute_real_ef_man fs parse_float pollutants lf
                         engine year rpm valve_type))
  /\ (fs "data/LLA_non_man.csv" = None ->
      forall pollutants lf,
        printed_by (compute_lla fs parse_float pollutants lf) = [ErrorLLAFile]
        /\ exists d,
             result (compute_lla fs parse_float pollutants lf) = Return d
             /\ forall p, In p pollutants -> dict_get d p = Some 1%float).
Proof.
  repeat apply conj.
  - intros H v_actual v_max type status.
    assert (L : compute_lf fs parse_float float_pow v_actual v_max
                  "auxiliary" type status
                = raise (FileNotFoundError "File 'LF_auxiliary.csv' not found")).
    { unfold compute_lf, read_csv. simpl. now rewrite H. }
    split; [exact L|]. intros. unfold compute_E. now rewrite L.
  - intros H pollutants engine year rpm. split.
    + intros. now apply compute_ef_base_missing.
    + intros. unfold compute_E.
      apply raises_bind. intros lf _. apply raises_bind. intros A _.
      destruct is_man.
      * apply raises_bind. intros _ _. apply raises_bind_l.
        unfold compute_real_ef_man.
        rewrite (compute_ef_base_missing _ _ _ _ _ _ H).
        apply raises_raise.
      * apply raises_bind. intros _ _. apply raises_bind. intros _ _.
        apply raises_bind_l. unfold compute_real_ef_non_man.
        rewrite (compute_ef_base_missing _ _ _ _ _ _ H).
        apply raises_raise.
  - intros H pollutants valve_type.
    assert (E : compute_efa_non_man fs parse_float pollutants valve_type
                = raise (FileNotFoundError "File 'EFA_non_man.csv' not found")).
    { unfold compute_efa_non_man, read_csv. now rewrite H. }
    split; [exact E|]. intros lf engine year rpm Hgate.
    unfold compute_real_ef_non_man.
    apply raises_bind. intros base_efs _. rewrite Hgate, E.
    apply raises_raise.
  - intros valve_type filename Hv H pollutants lf.
    assert (L : compute_laf_man fs parse_float pollutants lf valve_type
                = raise (FileNotFoundError
                           ("Khong tim thay file '" ++ filename ++ "'"))).
    { unfold compute_laf_man, read_csv. now rewrite Hv, bind_ret_l, H. }
    split; [exact L|]. intros engine year rpm.
    unfold compute_real_ef_man.
    apply raises_bind. intros base_efs _. rewrite L. apply raises_raise.
  - intros H pollutants lf.
    unfold compute_lla. rewrite H.
    destruct (for_pollutants_constant pollutants 1%float) as (d & Hd & Hin & _).
    split.
    + rewrite printed_bind. simpl.
      clear Hd Hin. cut (forall r, printed_by
          (for_pollutants pollutants (fun _ => ret 1%float) r) = []);
        [intros ->; reflexivity|].
      induction pollutants as [|q rest IH]; intros r; [reflexivity|].
      simpl. rewrite bind_ret_l. apply IH.
    + exists d. rewrite result_bind. simpl. auto.
Qed.

End MissingTables.

(** On the reference directory with one file removed at a time. *)
Lemma missing_table_files_on_fixture :
  compute_lf (Fixture.without "data/LF_auxiliary.csv") Fixture.parse Fixture.pow
    10 20 "auxiliary" "container" "trip"
  = raise (FileNotFoundError "File 'LF_auxiliary.csv' not found")
  /\ raises (compute_E (Fixture.without "data/EF_base.csv") Fixture.parse
               Fixture.pow ["NOx"] 10 20 1000 "main" "container" "trip"
               (VNum 0) false "C3" 100 2010)
  /\ raises (compute_real_ef_non_man (Fixture.without "data/EFA_non_man.csv")
               Fixture.parse ["NOx"] 0.125 "main" 2010 100 "C3")
  /\ compute_laf_man (Fixture.without "data/LAF_MAN_SV.csv") Fixture.parse
       ["NOx"] 0.125 "SV"
     = raise (FileNotFoundError "Khong tim thay file 'data/LAF_MAN_SV.csv'")
  /\ printed_by (compute_lla (Fixture.without "data/LLA_non_man.csv")
                   Fixture.parse ["NOx"] 0.125) = [ErrorLLAFile].
Proof.
  split; [|split; [|split; [|split]]].
  - exact (proj1 (proj1 (missing_table_files
                           (Fixture.without "data/LF_auxiliary.csv")
                           Fixture.parse Fixture.pow)
                        eq_refl 10%float 20%float "container" "trip")).
  - exact (proj2 (proj1 (proj2 (missing_table_files
                                  (Fixture.without "data/EF_base.csv")
                                  Fixture.parse Fixture.pow))
                        eq_refl ["NOx"] "main" 2010%Z 100%Z)
                 10%float 20%float 1000%float "container" "trip" (VNum 0)
                 false "C3").
  - exact (proj2 (proj1 (proj2 (proj2 (missing_table_files
                                         (Fixture.without "data/EFA_non_man.csv")
                                         Fixture.parse Fixture.pow)))
                        eq_refl ["NOx"] "C3")
                 0.125%float "main" 2010%Z 100%Z eq_refl).
  - exact (proj1 (proj1 (proj2 (proj2 (proj2 (missing_table_files
                                   (Fixture.without "data/LAF_MAN_SV.csv")
                                   Fixture.parse Fixture.pow))))
                        "SV" "data/LAF_MAN_SV.csv" eq_refl eq_refl
                        ["NOx"] 0.125%float)).
  - exact (proj1 (proj2 (proj2 (proj2 (proj2 (missing_table_files
                                   (Fixture.without "data/LLA_non_man.csv")
                                   Fixture.parse Fixture.pow))))
                        eq_refl ["NOx"] 0.125%float)).
Defined.

(** C5, as stated, fails: without [LLA_non_man.csv] the low-load adjustment
    raises nothing and returns the multiplier 1.0 for each pollutant, and the
    estimate that consults it returns a result. *)
Lemma missing_lla_table_is_not_fatal :
  compute_lla (Fixture.without "data/LLA_non_man.csv") Fixture.parse
    ["NOx"; "CO"] 0.125
  = ([ErrorLLAFile], Return [("NOx", 1%float); ("CO", 1%float)])
  /\ result (compute_E (Fixture.without "data/LLA_non_man.csv") Fixture.parse
               Fixture.pow ["NOx"] 10 20 1000 "main" "container" "trip"
               (VNum 0) false "C3" 100 2010)
     = Return [("NOx", 5737.5%float)].
Proof. split; reflexivity. Qed.

(** ** The dictionaries the functions return *)

Lemma bind_returns_inv {A B} (m : py A) (k : A -> py B) b :
  result (bind m k) = Return b ->
  exists a, result m = Return a /\ result (k a) = Return b.
Proof.
  rewrite result_bind. destruct (result m) as [a|e]; [eauto|discriminate].
Qed.

Ltac bind_inv H :=
  let a := fresh "a" in
  let Ha := fresh "Ha" in
  apply bind_returns_inv in H; destruct H as (a & Ha & H).

Lemma for_pollutants_covers pollutants body results d :
  result (for_pollutants pollutants body results) = Return d ->
  covers d pollutants.
Proof.
  intros H p Hp. destruct (for_pollutants_result _ _ _ _ H) as [Hin _].
  destruct (Hin p Hp) as (v & _ & Hv). eauto.
Qed.

Section Entries.

Variable fs : string -> option DataFrame.
Variable parse_float : string -> option float.

Lemma compute_ef_base_covers pollutants engine engine_speed year tier rpm d :
  result (compute_ef_base fs parse_float pollutants engine engine_speed
            year tier rpm) = Return d ->
  covers d pollutants.
Proof.
  unfold compute_ef_base. intros H.
  bind_inv H. bind_inv H. bind_inv H.
  now apply for_pollutants_covers in H.
Qed.

Lemma compute_efa_non_man_covers pollutants valve_type d :
  result (compute_efa_non_man fs parse_float pollutants valve_type) = Return d ->
  covers d pollutants.
Proof.
  unfold compute_efa_non_man. intros H. bind_inv H.
  destruct (negb _); [discriminate|].
  now apply for_pollutants_covers in H.
Qed.

Lemma compute_lla_covers pollutants lf d :
  result (compute_lla fs parse_float pollutants lf) = Return d ->
  covers d pollutants.
Proof.
  unfold compute_lla. intros H.
  destruct (fs "data/LLA_non_man.csv") as [lla_table|].
  - bind_inv H. destruct a as [t load].
    now apply for_pollutants_covers in H.
  - bind_inv H. now apply for_pollutants_covers in H.
Qed.


End Entries.

(** ** compute_real_ef_non_man *)

Section LoadCorrection.

Variable fs : string -> option DataFrame.
Variable parse_float : string -> option float.

(** C1 -- Strategy B gating.  When [lf > 0.2] or the engine is auxiliary,
    [compute_real_ef_non_man] ends as [compute_ef_base] does for that engine
    role: it returns exactly its dictionary (for an engine other than main,
    the preliminary main-engine lookup of line 239 having returned).  When
    [lf <= 0.2] and the engine is
    main, with the three lookups returning [base_efs], [efas] and [llas], it
    returns a dictionary that maps each requested pollutant [p] to
    [base_efs[p] * efas[p] * llas[p]]. *)
Theorem strategy_B_gating pollutants lf engine year rpm valve_type :
  ((0.2 <? lf)%float = true \/ engine = "auxiliary" ->
   engine = "main"
   \/ returns (compute_ef_base fs parse_float pollutants "main" "SSD" year 0 rpm) ->
   result (compute_real_ef_non_man fs parse_float pollutants lf engine
             year rpm valve_type)
   = result (compute_ef_base fs parse_float pollutants engine "SSD" year 0 rpm))
  /\ ((lf <=? 0.2)%float = true -> engine = "main" ->
      forall base_efs efas llas,
        result (compute_ef_base fs parse_float pollutants "main" "SSD"
                  year 0 rpm) = Return base_efs ->
        result (compute_efa_non_man fs parse_float pollutants valve_type)
        = Return efas ->
        result (compute_lla fs parse_float pollutants lf) = Return llas ->
        exists final_ef,
          result (compute_real_ef_non_man fs parse_float pollutants lf engine
                    year rpm valve_type) = Return final_ef
          /\ forall p, In p pollutants ->
               exists b e l,
                 dict_get base_efs p = Some b /\ dict_get efas p = Some e
                 /\ dict_get llas p = Some l
                 /\ dict_get final_ef p = Some (b * e * l)%float).
Proof.
  split.
  - intros Hgate Hbase. unfold compute_real_ef_non_man.
    assert (G : (0.2 <? lf)%float || (engine =? "auxiliary") = true).
    { destruct Hgate as [-> | ->]; [reflexivity|apply orb_true_r]. }
    rewrite result_bind, G.
    destruct Hbase as [-> | [base_efs Hb]].
    + destruct (result (compute_ef_base _ _ _ "main" _ _ _ _)) eqn:Hb;
        [|reflexivity].
      run. now rewrite Hb.
    + rewrite Hb. run.
      now destruct (result (compute_ef_base _ _ _ engine _ _ _ _)).
  - intros Hlf -> base_efs efas llas Hb He Hl.
    unfold compute_real_ef_non_man.
    rewrite result_bind, Hb, (leb_not_gt _ _ Hlf). simpl orb. cbn iota.
    rewrite result_bind, He, result_bind, Hl, result_bind.
    set (body := fun p : string =>
                   ret (get base_efs p 0 * get efas p 1 * get llas p 1)%float).
    destruct (for_pollutants_returns pollutants body [])
      as [final_ef Hf]; [intros; now eexists|].
    rewrite Hf. run. exists final_ef. split; [reflexivity|].
    intros p Hp.
    destruct (compute_ef_base_covers _ _ _ _ _ _ _ _ _ Hb p Hp) as [b Hbp].
    destruct (compute_efa_non_man_covers _ _ _ _ _ He p Hp) as [e Hep].
    destruct (compute_lla_covers _ _ _ _ _ Hl p Hp) as [l Hlp].
    exists b, e, l. repeat split; trivial.
    destruct (for_pollutants_result _ _ _ _ Hf) as [Hin _].
    destruct (Hin p Hp) as (v & Hv & Hg). rewrite Hg. f_equal.
    unfold body in Hv. injection Hv as <-.
    now rewrite (get_some _ _ _ _ Hbp), (get_some _ _ _ _ Hep),
      (get_some _ _ _ _ Hlp).
Qed.

End LoadCorrection.

(** On the reference tables: at 30% load the 2010 main engine keeps its base
    factors; at 12.5% load NOx is [15.3 * 1.25 * 1.22] and CO is
    [1.4 * 0.75 * 2]. *)
Lemma strategy_B_gating_on_fixture :
  result (compute_real_ef_non_man Fixture.table Fixture.parse ["NOx"; "CO"]
            0.3 "main" 2010 100 "C3")
  = result (compute_ef_base Fixture.table Fixture.parse ["NOx"; "CO"]
              "main" "SSD" 2010 0 100)
  /\ exists final_ef,
       result (compute_real_ef_non_man Fixture.table Fixture.parse
                 ["NOx"; "CO"] 0.125 "main" 2010 100 "C3") = Return final_ef
       /\ forall p, In p ["NOx"; "CO"] ->
            exists b e l,
              dict_get [("NOx", 15.3%float); ("CO", 1.4%float)] p = Some b
              /\ dict_get [("NOx", 1.25%float); ("CO", 0.75%float)] p = Some e
              /\ dict_get [("NOx", 1.22%float); ("CO", 2%float)] p = Some l
              /\ dict_get final_ef p = Some (b * e * l)%float.
Proof.
  split.
  - exact (proj1 (strategy_B_gating Fixture.table Fixture.parse ["NOx"; "CO"]
                    0.3 "main" 2010 100 "C3")
                 (or_introl eq_refl) (or_introl eq_refl)).
  - exact (proj2 (strategy_B_gating Fixture.table Fixture.parse ["NOx"; "CO"]
                    0.125 "main" 2010 100 "C3")
                 eq_refl eq_refl _ _ _ eq_refl eq_refl eq_refl).
Defined.

(** ** compute_E *)

Section Estimator.

Variable fs : string -> option DataFrame.
Variable parse_float : string -> option float.
Variable float_pow : float -> Z -> outcome float.






End Estimator.


(** ** Nearest-neighbour corrections *)

Lemma SFltb_above a b c :
  SFltb a b = false -> SFltb a c = true -> SFltb c b = false.
Proof.
  unfold SFltb.
  destruct a as [sa|sa| |sa ma ea], b as [sb|sb| |sb mb eb],
           c as [sc|sc| |sc mc ec]; simpl;
    change (Pos.compare_cont Eq) with Pos.compare; SFcases.
Qed.

Lemma ltb_above x y z :
  (x <? y)%float = false -> (x <? z)%float = true -> (z <? y)%float = false.
Proof. rewrite !FloatAxioms.ltb_spec. apply SFltb_above. Qed.

Lemma series_max_nan s :
  is_nan (series_max s) = true -> forall x, In x s -> is_nan x = true.
Proof.
  induction s as [|y s IH]; simpl; [intros _ x []|].
  destruct (is_nan y) eqn:Ny.
  - intros H x [<-|Hx]; [exact Ny|now apply IH].
  - destruct (is_nan (series_max s)) eqn:Nm; [congruence|].
    destruct (series_max s <? y)%float; congruence.
Qed.

(** No tabulated load is above [series_max]. *)
Lemma series_max_upper s x : In x s -> (series_max s <? x)%float = false.
Proof.
  induction s as [|y s IH]; simpl; [intros []|].
  intros Hx.
  destruct (is_nan y) eqn:Ny.
  - destruct Hx as [<-|Hx]; [now apply nan_ltb_r|now apply IH].
  - destruct (is_nan (series_max s)) eqn:Nm.
    + destruct Hx as [<-|Hx]; [apply ltb_irrefl|].
      apply nan_ltb_r. now apply (series_max_nan s).
    + destruct (series_max s <? y)%float eqn:Lt.
      * destruct Hx as [<-|Hx]; [apply ltb_irrefl|].
        apply ltb_above with (series_max s); [now apply IH|exact Lt].
      * destruct Hx as [<-|Hx]; [exact Lt|now apply IH].
Qed.

(** ** Pollutants absent from a correction table *)

Lemma existsb_find {A} (f : A -> bool) l :
  existsb f l = match find f l with Some _ => true | None => false end.
Proof.
  induction l as [|a l IH]; simpl; [reflexivity|].
  now destruct (f a).
Qed.

(** A loop whose iterations default to 1.0 for the pollutants a table does
    not know returns as soon as the iterations of the others do; every
    requested pollutant has an entry, the value of its own iteration. *)
Lemma for_pollutants_defaults pollutants body (absent : string -> bool) :
  (forall p, absent p = true -> result (body p) = Return 1%float) ->
  (forall q, In q pollutants -> absent q = false -> returns (body q)) ->
  exists d,
    result (for_pollutants pollutants body []) = Return d
    /\ (forall p, In p pollutants ->
          (absent p = true -> dict_get d p = Some 1%float)
          /\ exists v, result (body p) = Return v /\ dict_get d p = Some v)
    /\ (forall p, ~ In p pollutants -> dict_get d p = None).
Proof.
  intros Habs Hpres.
  destruct (for_pollutants_returns pollutants body []) as [d Hd].
  { intros p Hp. destruct (absent p) eqn:Ep.
    - exists 1%float. now apply Habs.
    - now apply Hpres. }
  exists d. split; [exact Hd|].
  destruct (for_pollutants_result _ _ _ _ Hd) as [Hin Hout].
  split; [|exact Hout].
  intros p Hp. destruct (Hin p Hp) as (v & Hv & Hg). split; [|eauto].
  intros Ep. rewrite (Habs p Ep) in Hv. now injection Hv as <-.
Qed.

Section Defaults.

Variable fs : string -> option DataFrame.
Variable parse_float : string -> option float.

(** C10 -- Missing-pollutant default substitution.  In each of the three
    correction lookups (low-load adjustment, emission-factor adjustment,
    load-adjustment factor), the iteration of a pollutant that the table does
    not know prints a warning and yields the multiplier 1.0 without raising;
    the call returns as soon as the pollutants the table knows are computed,
    and its dictionary has one entry per requested pollutant: 1.0 for those
    the table does not know and, for every one, the value its own iteration
    computes, whichever other pollutants are requested. *)
Theorem missing_pollutant_defaults pollutants :
  (forall lla_table tbl load lf,
      fs "data/LLA_non_man.csv" = Some lla_table ->
      result (load_column parse_float lla_table) = Return (tbl, load) ->
      let body := lla_of parse_float tbl load (lf * 100)%float (series_max load) in
      (forall p, in_columns p tbl = false ->
                 body p = ([WarnLLAColumn p], Return 1%float))
      /\ ((forall q, In q pollutants -> in_columns q tbl = true ->
                     returns (body q)) ->
          exists d,
            result (compute_lla fs parse_float pollutants lf) = Return d
            /\ (forall p, In p pollutants ->
                  (in_columns p tbl = false -> dict_get d p = Some 1%float)
                  /\ exists v, result (body p) = Return v
                               /\ dict_get d p = Some v)
            /\ (forall p, ~ In p pollutants -> dict_get d p = None)))
  /\ (forall df valve_type i,
        fs "data/EFA_non_man.csv" = Some df ->
        valve_type = "SV" \/ valve_type = "C3" ->
        col_index "Pollutant" (columns df) = Some i ->
        let body := efa_of parse_float df valve_type in
        let known p := existsb (fun r => py_eq (cell i r) (VStr p)) (rows df) in
        (forall p, known p = false ->
                   body p = ([WarnEFARow p], Return 1%float))
        /\ ((forall q, In q pollutants -> known q = true -> returns (body q)) ->
            exists d,
              result (compute_efa_non_man fs parse_float pollutants valve_type)
              = Return d
              /\ (forall p, In p pollutants ->
                    (known p = false -> dict_get d p = Some 1%float)
                    /\ exists v, result (body p) = Return v
                                 /\ dict_get d p = Some v)
              /\ (forall p, ~ In p pollutants -> dict_get d p = None)))
  /\ (forall valve_type filename df tbl load lf,
        laf_filename valve_type = ret filename ->
        fs filename = Some df ->
        result (load_column parse_float df) = Return (tbl, load) ->
        let body := laf_of parse_float tbl load (lf * 100)%float valve_type in
        (forall p, in_columns p tbl = false ->
                   body p = ([WarnLAFColumn p valve_type], Return 1%float))
        /\ ((forall q, In q pollutants -> in_columns q tbl = true ->
                       returns (body q)) ->
            exists d,
              result (compute_laf_man fs parse_float pollutants lf valve_type)
              = Return d
              /\ (forall p, In p pollutants ->
                    (in_columns p tbl = false -> dict_get d p = Some 1%float)
                    /\ exists v, result (body p) = Return v
                                 /\ dict_get d p = Some v)
              /\ (forall p, ~ In p pollutants -> dict_get d p = None))).
Proof.
  repeat apply conj.
  - intros lla_table tbl load lf Hfs Hload body.
    assert (Hdef : forall p, in_columns p tbl = false ->
                     body p = ([WarnLLAColumn p], Return 1%float)).
    { intros p Hp. unfold body, lla_of. now rewrite Hp. }
    split; [exact Hdef|]. intros Hpres.
    unfold compute_lla. rewrite Hfs, result_bind, Hload.
    destruct (for_pollutants_defaults pollutants body
                (fun p => negb (in_columns p tbl))) as (d & Hd & Hin & Hout).
    + intros p Hp. apply negb_true_iff in Hp. now rewrite (Hdef p Hp).
    + intros q Hq Hc. apply negb_false_iff in Hc. now apply Hpres.
    + exists d. split; [exact Hd|]. split; [|exact Hout].
      intros p Hp. destruct (Hin p Hp) as [H1 H2]. split; [|exact H2].
      intros Hc. apply H1. now rewrite Hc.
  - intros df valve_type i Hfs Hvalve Hi body known.
    assert (Hdef : forall p, known p = false ->
                     body p = ([WarnEFARow p], Return 1%float)).
    { intros p Hp. unfold body, efa_of.
      rewrite (series_cells _ _ _ Hi), bind_ret_l, map_map, empty_select.
      unfold known in Hp. rewrite existsb_find in Hp.
      now destruct (find _ (rows df)). }
    split; [exact Hdef|]. intros Hpres.
    unfold compute_efa_non_man, read_csv. rewrite Hfs, bind_ret_l.
    assert (V : negb ((valve_type =? "SV") || (valve_type =? "C3")) = false).
    { destruct Hvalve as [-> | ->]; reflexivity. }
    rewrite V.
    destruct (for_pollutants_defaults pollutants body
                (fun p => negb (known p))) as (d & Hd & Hin & Hout).
    + intros p Hp. apply negb_true_iff in Hp. now rewrite (Hdef p Hp).
    + intros q Hq Hc. apply negb_false_iff in Hc. now apply Hpres.
    + exists d. split; [exact Hd|]. split; [|exact Hout].
      intros p Hp. destruct (Hin p Hp) as [H1 H2]. split; [|exact H2].
      intros Hc. apply H1. now rewrite Hc.
  - intros valve_type filename df tbl load lf Hv Hfs Hload body.
    assert (Hdef : forall p, in_columns p tbl = false ->
                     body p = ([WarnLAFColumn p valve_type], Return 1%float)).
    { intros p Hp. unfold body, laf_of. now rewrite Hp. }
    split; [exact Hdef|]. intros Hpres.
    unfold compute_laf_man, read_csv.
    rewrite Hv, bind_ret_l, Hfs, bind_ret_l, result_bind, Hload.
    destruct (for_pollutants_defaults pollutants body
                (fun p => negb (in_columns p tbl))) as (d & Hd & Hin & Hout).
    + intros p Hp. apply negb_true_iff in Hp. now rewrite (Hdef p Hp).
    + intros q Hq Hc. apply negb_false_iff in Hc. now apply Hpres.
    + exists d. split; [exact Hd|]. split; [|exact Hout].
      intros p Hp. destruct (Hin p Hp) as [H1 H2]. split; [|exact H2].
      intros Hc. apply H1. now rewrite Hc.
Qed.

End Defaults.

(** On the reference tables, none of which knows SO2: requested between NOx
    and CO at load factor 0.125, SO2 gets the multiplier 1.0 from each
    lookup, and NOx and CO get the tabulated values. *)
Lemma missing_pollutant_defaults_on_fixture :
  (exists d,
      result (compute_lla Fixture.table Fixture.parse ["NOx"; "SO2"; "CO"] 0.125)
      = Return d
      /\ dict_get d "SO2" = Some 1%float
      /\ dict_get d "NOx" = Some 1.22%float /\ dict_get d "CO" = Some 2%float)
  /\ (exists d,
        result (compute_efa_non_man Fixture.table Fixture.parse
                  ["NOx"; "SO2"; "CO"] "C3") = Return d
        /\ dict_get d "SO2" = Some 1%float
        /\ dict_get d "NOx" = Some 1.25%float
        /\ dict_get d "CO" = Some 0.75%float)
  /\ (exists d,
        result (compute_laf_man Fixture.table Fixture.parse
                  ["NOx"; "SO2"; "CO"] 0.125 "C3") = Return d
        /\ dict_get d "SO2" = Some 1%float
        /\ dict_get d "NOx" = Some 1.25%float /\ dict_get d "CO" = Some 3%float).
Proof.
  pose proof (missing_pollutant_defaults Fixture.table Fixture.parse
                ["NOx"; "SO2"; "CO"]) as (Hlla & Hefa & Hlaf).
  assert (Hin : In "NOx" ["NOx"; "SO2"; "CO"] /\ In "SO2" ["NOx"; "SO2"; "CO"]
                /\ In "CO" ["NOx"; "SO2"; "CO"]) by (simpl; tauto).
  destruct Hin as (HN & HS & HC).
  split; [|split].
  - destruct (Hlla Fixture.LLA_non_man
                (set_column Fixture.LLA_non_man "Load" [VNum 2; VNum 10; VNum 20])
                [2; 10; 20]%float 0.125%float eq_refl eq_refl) as [_ H].
    destruct H as (d & Hd & Hp & _).
    { intros q [<-|[<-|[<-|[]]]] _; eexists; reflexivity. }
    exists d. split; [exact Hd|]. split; [|split].
    + exact (proj1 (Hp "SO2" HS) eq_refl).
    + destruct (proj2 (Hp "NOx" HN)) as (v & Hv & Hg).
      injection Hv as <-. exact Hg.
    + destruct (proj2 (Hp "CO" HC)) as (v & Hv & Hg).
      injection Hv as <-. exact Hg.
  - destruct (Hefa Fixture.EFA_non_man "C3" 0%nat eq_refl
                (or_intror eq_refl) eq_refl) as [_ H].
    destruct H as (d & Hd & Hp & _).
    { intros q [<-|[<-|[<-|[]]]] _; eexists; reflexivity. }
    exists d. split; [exact Hd|]. split; [|split].
    + exact (proj1 (Hp "SO2" HS) eq_refl).
    + destruct (proj2 (Hp "NOx" HN)) as (v & Hv & Hg).
      injection Hv as <-. exact Hg.
    + destruct (proj2 (Hp "CO" HC)) as (v & Hv & Hg).
      injection Hv as <-. exact Hg.
  - destruct (Hlaf "C3" "data/LAF_MAN_C3.csv" Fixture.LAF_MAN_C3
                Fixture.LAF_MAN_C3 [10; 12; 13; 50]%float 0.125%float
                eq_refl eq_refl eq_refl) as [_ H].
    destruct H as (d & Hd & Hp & _).
    { intros q [<-|[<-|[<-|[]]]] _; eexists; reflexivity. }
    exists d. split; [exact Hd|]. split; [|split].
    + exact (proj1 (Hp "SO2" HS) eq_refl).
    + destruct (proj2 (Hp "NOx" HN)) as (v & Hv & Hg).
      injection Hv as <-. exact Hg.
    + destruct (proj2 (Hp "CO" HC)) as (v & Hv & Hg).
      injection Hv as <-. exact Hg.
Defined.

(** * Further properties of the module *)

(** ** Arguments that abort an estimate *)

Section Arguments.

Variable fs : string -> option DataFrame.
Variable parse_float : string -> option float.
Variable float_pow : float -> Z -> outcome float.

(** X1 -- An engine role other than main and auxiliary aborts the estimate
    at its first statement: [compute_lf], and [compute_E] with it, raise the
    [ValueError] of line 48 before any table is read or any line printed. *)
Theorem invalid_engine_aborts_estimate pollutants v_actual v_max P engine type
    status buoy (is_man : bool) valve_type rpm year :
  engine <> "main" -> engine <> "auxiliary" ->
  compute_lf fs parse_float float_pow v_actual v_max engine type status
  = raise (ValueError "Engine must be 'main' or 'auxiliary'")
  /\ compute_E fs parse_float float_pow pollutants v_actual v_max P engine type
       status buoy is_man valve_type rpm year
     = raise (ValueError "Engine must be 'main' or 'auxiliary'").
Proof.
  intros Hm Ha.
  assert (L : compute_lf fs parse_float float_pow v_actual v_max engine type
                status
              = raise (ValueError "Engine must be 'main' or 'auxiliary'")).
  { unfold compute_lf.
    destruct (String.eqb_spec engine "main"); [contradiction|].
    destruct (String.eqb_spec engine "auxiliary"); [contradiction|reflexivity]. }
  split; [exact L|]. unfold compute_E. now rewrite L.
Qed.

(** X2 -- A main engine whose rated speed is zero (of either sign) aborts
    the estimate with [ZeroDivisionError], before any table is read. *)
Theorem zero_rated_speed_aborts_estimate pollutants v_actual v_max P type
    status buoy (is_man : bool) valve_type rpm year :
  (v_max =? 0)%float = true ->
  compute_lf fs parse_float float_pow v_actual v_max "main" type status
  = raise ZeroDivisionError
  /\ compute_E fs parse_float float_pow pollutants v_actual v_max P "main" type
       status buoy is_man valve_type rpm year
     = raise ZeroDivisionError.
Proof.
  intros Hz.
  assert (L : compute_lf fs parse_float float_pow v_actual v_max "main" type
                status = raise ZeroDivisionError).
  { unfold compute_lf, truediv. simpl. now rewrite Hz. }
  split; [exact L|]. unfold compute_E. now rewrite L.
Qed.

(** X3 -- The two lookups keyed by the valve configuration validate it at
    different moments.  [compute_laf_man] rejects a valve type other than C3
    and SV before it looks for a file; [compute_efa_non_man] reads its table
    first, so that an invalid valve type is reported only when the file is
    there, and the missing file otherwise. *)
Theorem valve_type_validation pollutants lf valve_type :
  valve_type <> "SV" -> valve_type <> "C3" ->
  compute_laf_man fs parse_float pollutants lf valve_type
  = raise (ValueError "Loai MAN khong hop le. Chi chap nhan 'C3' hoac 'SV'.")
  /\ (forall df,
        fs "data/EFA_non_man.csv" = Some df ->
        compute_efa_non_man fs parse_float pollutants valve_type
        = raise (ValueError ("Valve type '" ++ valve_type
            ++ "' is invalid. Use 'SV' (Slide Valve) or 'C3' (No Slide Valve).")))
  /\ (fs "data/EFA_non_man.csv" = None ->
      compute_efa_non_man fs parse_float pollutants valve_type
      = raise (FileNotFoundError "File 'EFA_non_man.csv' not found")).
Proof.
  intros Hsv Hc3.
  apply String.eqb_neq in Hsv. apply String.eqb_neq in Hc3.
  repeat apply conj.
  - unfold compute_laf_man, laf_filename. now rewrite Hc3, Hsv.
  - intros df Hfs. unfold compute_efa_non_man, read_csv.
    now rewrite Hfs, bind_ret_l, Hsv, Hc3.
  - intros Hfs. unfold compute_efa_non_man, read_csv. now rewrite Hfs.
Qed.

End Arguments.

(** The engine role of the module's fifth self-test; a rated speed of minus
    zero; the valve type [XX] with and without the adjustment table. *)
Lemma invalid_engine_on_fixture :
  compute_E Fixture.table Fixture.parse Fixture.pow ["NOx"] 10 20 1000
    "invalid" "container" "trip" (VNum 0) true "C3" 100 2010
  = raise (ValueError "Engine must be 'main' or 'auxiliary'").
Proof.
  refine (proj2 (invalid_engine_aborts_estimate Fixture.table Fixture.parse
                   Fixture.pow ["NOx"] 10 20 1000 "invalid" "container" "trip"
                   (VNum 0) true "C3" 100 2010 _ _)); discriminate.
Defined.

Lemma zero_rated_speed_on_fixture :
  compute_E Fixture.table Fixture.parse Fixture.pow ["NOx"] 10 (-0) 1000
    "main" "container" "trip" (VNum 0) true "C3" 100 2010
  = raise ZeroDivisionError.
Proof.
  exact (proj2 (zero_rated_speed_aborts_estimate Fixture.table Fixture.parse
                  Fixture.pow ["NOx"] 10 (-0) 1000 "container" "trip"
                  (VNum 0) true "C3" 100 2010 eq_refl)).
Defined.

Lemma valve_type_validation_on_fixture :
  compute_laf_man Fixture.table Fixture.parse ["NOx"] 0.125 "XX"
  = raise (ValueError "Loai MAN khong hop le. Chi chap nhan 'C3' hoac 'SV'.")
  /\ compute_efa_non_man Fixture.table Fixture.parse ["NOx"] "XX"
     = raise (ValueError
         "Valve type 'XX' is invalid. Use 'SV' (Slide Valve) or 'C3' (No Slide Valve).")
  /\ compute_efa_non_man (Fixture.without "data/EFA_non_man.csv") Fixture.parse
       ["NOx"] "XX"
     = raise (FileNotFoundError "File 'EFA_non_man.csv' not found").
Proof.
  assert (Hsv : "XX" <> "SV") by discriminate.
  assert (Hc3 : "XX" <> "C3") by discriminate.
  split; [|split].
  - exact (proj1 (valve_type_validation Fixture.table Fixture.parse ["NOx"]
                    0.125 "XX" Hsv Hc3)).
  - exact (proj1 (proj2 (valve_type_validation Fixture.table Fixture.parse
                           ["NOx"] 0.125 "XX" Hsv Hc3))
                 Fixture.EFA_non_man eq_refl).
  - exact (proj2 (proj2 (valve_type_validation
                           (Fixture.without "data/EFA_non_man.csv")
                           Fixture.parse ["NOx"] 0.125 "XX" Hsv Hc3))
                 eq_refl).
Defined.

(** ** What the open gate leaves unread *)

(** [compute_ef_base] reads one file. *)
Lemma compute_ef_base_reads_one_file fs fs' parse_float pollutants engine
    engine_speed year tier rpm :
  fs "data/EF_base.csv" = fs' "data/EF_base.csv" ->
  compute_ef_base fs parse_float pollutants engine engine_speed year tier rpm
  = compute_ef_base fs' parse_float pollutants engine engine_speed year tier rpm.
Proof.
  intros H. unfold compute_ef_base, read_csv. now rewrite H.
Qed.

(** X4 -- Above 20% load, and for an auxiliary engine at any load,
    [compute_real_ef_non_man] consults the base-emission table only: what it
    prints and returns is the same for every valve type, valid or not, and
    for every state of the other files, missing adjustment tables
    included. *)
Theorem open_gate_skips_corrections fs fs' parse_float pollutants lf engine
    year rpm valve_type valve_type' :
  (0.2 <? lf)%float = true \/ engine = "auxiliary" ->
  fs "data/EF_base.csv" = fs' "data/EF_base.csv" ->
  compute_real_ef_non_man fs parse_float pollutants lf engine year rpm valve_type
  = compute_real_ef_non_man fs' parse_float pollutants lf engine year rpm
      valve_type'.
Proof.
  intros Hgate Hfs. unfold compute_real_ef_non_man.
  assert (G : (0.2 <? lf)%float || (engine =? "auxiliary") = true).
  { destruct Hgate as [-> | ->]; [reflexivity|apply orb_true_r]. }
  rewrite G.
  rewrite (compute_ef_base_reads_one_file fs fs' _ _ "main" _ _ _ _ Hfs).
  now rewrite (compute_ef_base_reads_one_file fs fs' _ _ engine _ _ _ _ Hfs).
Qed.

(** At 30% load, the valve type [XX] and the absence of the emission-factor
    adjustment table go unnoticed. *)
Lemma open_gate_on_fixture :
  compute_real_ef_non_man Fixture.table Fixture.parse ["NOx"; "SO2"] 0.3
    "main" 2010 100 "C3"
  = compute_real_ef_non_man (Fixture.without "data/EFA_non_man.csv")
      Fixture.parse ["NOx"; "SO2"] 0.3 "main" 2010 100 "XX".
Proof.
  exact (open_gate_skips_corrections Fixture.table
           (Fixture.without "data/EFA_non_man.csv") Fixture.parse
           ["NOx"; "SO2"] 0.3 "main" 2010 100 "C3" "XX"
           (or_introl eq_refl) eq_refl).
Defined.

(** ** The status of a main engine *)

Section Status.

Variable fs : string -> option DataFrame.
Variable parse_float : string -> option float.
Variable float_pow : float -> Z -> outcome float.

(** X5 -- The load factor of a main engine does not read the status; the
    distance factor does, as a column of the buoy table.  For a tabulated
    buoy and a status that is no column of that table, [compute_A] raises
    [KeyError] (not the [ValueError] of the auxiliary load factor), and so
    does the estimate of a main engine whose load factor is computed. *)
Theorem unknown_status_of_main_engine s_table i r pollutants v_actual v_max P
    type status buoy (is_man : bool) valve_type rpm year lf :
  fs "data/buoy.csv" = Some s_table ->
  col_index "buoy" (columns s_table) = Some i ->
  find (fun r => py_eq (cell i r) buoy) (rows s_table) = Some r ->
  in_columns status s_table = false ->
  result (compute_lf fs parse_float float_pow v_actual v_max "main" type status)
  = Return lf ->
  compute_A fs v_actual buoy status = raise (KeyError status)
  /\ result (compute_E fs parse_float float_pow pollutants v_actual v_max P
               "main" type status buoy is_man valve_type rpm year)
     = Raise (KeyError status).
Proof.
  intros Hfs Hi Hr Hs Hlf.
  assert (A : compute_A fs v_actual buoy status = raise (KeyError status)).
  { rewrite (compute_A_rows _ _ _ _ _ _ Hfs Hi), Hr.
    unfold in_columns in Hs.
    now destruct (col_index status (columns s_table)). }
  split; [exact A|].
  unfold compute_E. now rewrite result_bind, Hlf, result_bind, A.
Qed.

End Status.

Lemma unknown_status_on_fixture :
  result (compute_E Fixture.table Fixture.parse Fixture.pow ["NOx"] 10 20 1000
            "main" "container" "anchored" (VNum 0) true "C3" 100 2010)
  = Raise (KeyError "anchored").
Proof.
  exact (proj2 (unknown_status_of_main_engine Fixture.table Fixture.parse
                  Fixture.pow Fixture.buoy 0
                  [VNum 0; VNum 12; VNum 6; VNum 0] ["NOx"] 10 20 1000
                  "container" "anchored" (VNum 0) true "C3" 100 2010 0.125
                  eq_refl eq_refl eq_refl eq_refl eq_refl)).
Defined.

(** ** Rows missing from the base-emission table *)

Lemma for_pollutants_default_value pollutants body (absent : string -> bool) v0 :
  (forall p, absent p = true -> result (body p) = Return v0) ->
  (forall q, In q pollutants -> absent q = false -> returns (body q)) ->
  exists d,
    result (for_pollutants pollutants body []) = Return d
    /\ (forall p, In p pollutants ->
          (absent p = true -> dict_get d p = Some v0)
          /\ exists v, result (body p) = Return v /\ dict_get d p = Some v)
    /\ (forall p, ~ In p pollutants -> dict_get d p = None).
Proof.
  intros Habs Hpres.
  destruct (for_pollutants_returns pollutants body []) as [d Hd].
  { intros p Hp. destruct (absent p) eqn:Ep.
    - exists v0. now apply Habs.
    - now apply Hpres. }
  exists d. split; [exact Hd|].
  destruct (for_pollutants_result _ _ _ _ Hd) as [Hin Hout].
  split; [|exact Hout].
  intros p Hp. destruct (Hin p Hp) as (v & Hv & Hg). split; [|eauto].
  intros Ep. rewrite (Habs p Ep) in Hv. now injection Hv as <-.
Qed.

(** What one iteration prints: the warning of a missing row, or nothing. *)
Lemma printed_by_py_float parse_float v : printed_by (py_float parse_float v) = [].
Proof.
  destruct v as [s|x]; simpl; [|reflexivity].
  now destruct (parse_float s).
Qed.

Lemma printed_by_for_pollutants pollutants body results d :
  result (for_pollutants pollutants body results) = Return d ->
  printed_by (for_pollutants pollutants body results)
  = flat_map (fun p => printed_by (body p)) pollutants.
Proof.
  revert results. induction pollutants as [|q rest IH]; intros results H.
  - reflexivity.
  - simpl in *. rewrite printed_bind.
    rewrite result_bind in H.
    destruct (result (body q)) as [v|e]; [|discriminate].
    now rewrite (IH _ H).
Qed.

Section BaseRows.

Variable fs : string -> option DataFrame.
Variable parse_float : string -> option float.

Variable ef_table : DataFrame.
Variables i j : nat.
Hypothesis table_read : fs "data/EF_base.csv" = Some ef_table.
Hypothesis exhaust_column : col_index "exhaust" (columns ef_table) = Some i.
Hypothesis tier_column : col_index "Tier" (columns ef_table) = Some j.

Variables year rpm t : Z.
Variable s : string.
Hypothesis tier_of_year : match_year year = ret t.
Hypothesis speed_of_rpm : match_rpm rpm = ret s.

(** The pollutants with a row at the tier of the build year. *)
Let known (p : string) : bool := existsb (base_row i j p t) (rows ef_table).

Lemma compute_ef_base_loop pollutants engine engine_speed tier :
  compute_ef_base fs parse_float pollutants engine engine_speed year tier rpm
  = for_pollutants pollutants (ef_base_of parse_float ef_table engine s t) [].
Proof.
  unfold compute_ef_base, read_csv.
  now rewrite tier_of_year, speed_of_rpm, table_read, !bind_ret_l.
Qed.

Lemma ef_base_of_unknown engine p :
  known p = false ->
  ef_base_of parse_float ef_table engine s t p
  = ([WarnBaseRow p t], Return 0%float).
Proof.
  unfold known. rewrite existsb_find. intros H.
  rewrite (ef_base_of_row _ _ _ _ _ _ _ _ exhaust_column tier_column).
  now destruct (find _ (rows ef_table)).
Qed.

Lemma ef_base_of_known_prints_nothing engine p :
  known p = true ->
  printed_by (ef_base_of parse_float ef_table engine s t p) = [].
Proof.
  unfold known. rewrite existsb_find. intros H.
  rewrite (ef_base_of_row _ _ _ _ _ _ _ _ exhaust_column tier_column).
  destruct (find _ (rows ef_table)) as [r|]; [|discriminate].
  destruct (base_column engine s) as [column|].
  - destruct (col_index column (columns ef_table));
      [apply printed_by_py_float|reflexivity].
  - now destruct (engine =? "main").
Qed.

(** X6 -- A pollutant without a row at the tier of the build year does not
    stop the base-emission lookup: its iteration prints a warning and
    yields 0.0; the call returns as soon as the pollutants that have a row
    are computed, with one entry per requested pollutant, 0.0 for those
    without a row. *)
Theorem missing_base_row_defaults pollutants engine engine_speed tier :
  let body := ef_base_of parse_float ef_table engine s t in
  (forall p, known p = false -> body p = ([WarnBaseRow p t], Return 0%float))
  /\ ((forall q, In q pollutants -> known q = true -> returns (body q)) ->
      exists d,
        result (compute_ef_base fs parse_float pollutants engine engine_speed
                  year tier rpm) = Return d
        /\ (forall p, In p pollutants ->
              (known p = false -> dict_get d p = Some 0%float)
              /\ exists v, result (body p) = Return v /\ dict_get d p = Some v)
        /\ (forall p, ~ In p pollutants -> dict_get d p = None)).
Proof.
  intros body. split; [intros p; apply ef_base_of_unknown|].
  intros Hpres. rewrite compute_ef_base_loop. fold body.
  destruct (for_pollutants_default_value pollutants body
              (fun p => negb (known p)) 0%float) as (d & Hd & Hin & Hout).
  - intros p Hp. apply negb_true_iff in Hp. unfold body.
    now rewrite (ef_base_of_unknown engine p Hp).
  - intros q Hq Hk. apply negb_false_iff in Hk. now apply Hpres.
  - exists d. split; [exact Hd|]. split; [|exact Hout].
    intros p Hp. destruct (Hin p Hp) as [H1 H2]. split; [|exact H2].
    intros Hk. apply H1. now rewrite Hk.
Qed.

(** X7 -- The base-emission lookup checks the engine role only on a
    matched row.  For a role other than main and auxiliary it raises the
    [ValueError] of line 126 when some requested pollutant has a row at the
    tier of the build year, and otherwise returns 0.0 for every requested
    pollutant, the role going unnoticed. *)
Theorem engine_checked_on_matched_rows pollutants engine engine_speed tier :
  engine <> "main" -> engine <> "auxiliary" ->
  (existsb known pollutants = true ->
   result (compute_ef_base fs parse_float pollutants engine engine_speed
             year tier rpm)
   = Raise (ValueError "Engine must be 'main' or 'auxiliary'"))
  /\ (existsb known pollutants = false ->
      exists d,
        result (compute_ef_base fs parse_float pollutants engine engine_speed
                  year tier rpm) = Return d
        /\ forall p, In p pollutants -> dict_get d p = Some 0%float).
Proof.
  intros Hm Ha. rewrite compute_ef_base_loop.
  set (body := ef_base_of parse_float ef_table engine s t).
  assert (Hknown : forall p, known p = true ->
            result (body p)
            = Raise (ValueError "Engine must be 'main' or 'auxiliary'")).
  { intros p. unfold known. rewrite existsb_find. intros H. unfold body.
    rewrite (ef_base_of_row _ _ _ _ _ _ _ _ exhaust_column tier_column).
    destruct (find _ (rows ef_table)) as [r|]; [|discriminate].
    unfold base_column.
    destruct (String.eqb_spec engine "main"); [contradiction|].
    destruct (String.eqb_spec engine "auxiliary"); [contradiction|reflexivity]. }
  split.
  - generalize (@nil (string * float)) as results.
    induction pollutants as [|q rest IH]; intros results H; [discriminate|].
    simpl in *. rewrite result_bind.
    destruct (known q) eqn:Kq.
    + now rewrite (Hknown q Kq).
    + unfold body at 1. rewrite (ef_base_of_unknown engine q Kq).
      simpl. now apply IH.
  - intros H.
    destruct (for_pollutants_default_value pollutants body
                (fun p => negb (known p)) 0%float) as (d & Hd & Hin & _).
    + intros p Hp. apply negb_true_iff in Hp. unfold body.
      now rewrite (ef_base_of_unknown engine p Hp).
    + intros q Hq Hk. apply negb_false_iff in Hk. exfalso.
      assert (existsb known pollutants = true); [|congruence].
      apply existsb_exists. now exists q.
    + exists d. split; [exact Hd|]. intros p Hp.
      apply (proj1 (Hin p Hp)). apply negb_true_iff.
      destruct (known p) eqn:Kp; [|reflexivity]. exfalso.
      assert (existsb known pollutants = true); [|congruence].
      apply existsb_exists. now exists p.
Qed.

(** X8 -- When the base-emission lookup returns, what it printed is
    exactly one warning per requested pollutant without a row, in the order
    of the request (a pollutant requested twice is warned about twice). *)
Theorem base_lookup_warnings pollutants engine engine_speed tier d :
  result (compute_ef_base fs parse_float pollutants engine engine_speed
            year tier rpm) = Return d ->
  printed_by (compute_ef_base fs parse_float pollutants engine engine_speed
                year tier rpm)
  = map (fun p => WarnBaseRow p t) (filter (fun p => negb (known p)) pollutants).
Proof.
  rewrite compute_ef_base_loop. intros H.
  rewrite (printed_by_for_pollutants _ _ _ _ H). clear H.
  induction pollutants as [|q rest IH]; [reflexivity|].
  simpl. rewrite IH. destruct (known q) eqn:Kq; simpl.
  - now rewrite (ef_base_of_known_prints_nothing engine q Kq).
  - now rewrite (ef_base_of_unknown engine q Kq).
Qed.

End BaseRows.

(** On the reference table, for an engine of 1990 (tier 0, where only NOx
    has a row): SO2 and CO get 0.0 beside the NOx of a main engine; the role
    [turbine] raises when NOx is requested and goes unnoticed otherwise; and
    SO2, requested twice, is warned about twice. *)
Lemma missing_base_row_on_fixture :
  exists d,
    result (compute_ef_base Fixture.table Fixture.parse ["SO2"; "NOx"; "CO"]
              "main" "SSD" 1990 0 100) = Return d
    /\ dict_get d "SO2" = Some 0%float /\ dict_get d "CO" = Some 0%float
    /\ dict_get d "NOx" = Some 18.1%float.
Proof.
  destruct (proj2 (missing_base_row_defaults Fixture.table Fixture.parse
                     Fixture.EF_base 0 1 eq_refl eq_refl eq_refl
                     1990 100 0 "SSD" eq_refl eq_refl
                     ["SO2"; "NOx"; "CO"] "main" "SSD" 0))
    as (d & Hd & Hp & _).
  { intros q [<-|[<-|[<-|[]]]] _; eexists; reflexivity. }
  exists d. split; [exact Hd|]. split; [|split].
  - apply (Hp "SO2"); [simpl; tauto|reflexivity].
  - apply (Hp "CO"); [simpl; tauto|reflexivity].
  - destruct (proj2 (Hp "NOx" ltac:(simpl; tauto))) as (v & Hv & Hg).
    injection Hv as <-. exact Hg.
Defined.

Lemma engine_checked_on_fixture :
  result (compute_ef_base Fixture.table Fixture.parse ["SO2"; "NOx"]
            "turbine" "SSD" 1990 0 100)
  = Raise (ValueError "Engine must be 'main' or 'auxiliary'")
  /\ exists d,
       result (compute_ef_base Fixture.table Fixture.parse ["SO2"; "CO"]
                 "turbine" "SSD" 1990 0 100) = Return d
       /\ forall p, In p ["SO2"; "CO"] -> dict_get d p = Some 0%float.
Proof.
  assert (Hm : "turbine" <> "main") by discriminate.
  assert (Ha : "turbine" <> "auxiliary") by discriminate.
  split.
  - exact (proj1 (engine_checked_on_matched_rows Fixture.table Fixture.parse
                    Fixture.EF_base 0 1 eq_refl eq_refl eq_refl
                    1990 100 0 "SSD" eq_refl eq_refl
                    ["SO2"; "NOx"] "turbine" "SSD" 0 Hm Ha) eq_refl).
  - exact (proj2 (engine_checked_on_matched_rows Fixture.table Fixture.parse
                    Fixture.EF_base 0 1 eq_refl eq_refl eq_refl
                    1990 100 0 "SSD" eq_refl eq_refl
                    ["SO2"; "CO"] "turbine" "SSD" 0 Hm Ha) eq_refl).
Defined.

Lemma base_lookup_warnings_on_fixture :
  printed_by (compute_ef_base Fixture.table Fixture.parse
                ["SO2"; "NOx"; "CO"; "SO2"] "main" "SSD" 1990 0 100)
  = [WarnBaseRow "SO2" 0; WarnBaseRow "CO" 0; WarnBaseRow "SO2" 0].
Proof.
  exact (base_lookup_warnings Fixture.table Fixture.parse
           Fixture.EF_base 0 1 eq_refl eq_refl eq_refl
           1990 100 0 "SSD" eq_refl eq_refl
           ["SO2"; "NOx"; "CO"; "SO2"] "main" "SSD" 0
           [("SO2", 0%float); ("NOx", 18.1%float); ("CO", 0%float)] eq_refl).
Defined.

(** ** The keys of the result *)

Lemma keys_dict_set d k v :
  keys (dict_set d k v)
  = if existsb (String.eqb k) (keys d) then keys d else (keys d ++ [k])%list.
Proof.
  unfold keys. induction d as [|[k' v'] d IH]; simpl; [reflexivity|].
  rewrite (String.eqb_sym k k').
  destruct (String.eqb_spec k' k) as [->|N]; simpl; [reflexivity|].
  rewrite IH.
  now destruct (existsb (String.eqb k) (map fst d)).
Qed.

Lemma filter_comm {A} (f g : A -> bool) l :
  filter f (filter g l) = filter g (filter f l).
Proof.
  induction l as [|a l IH]; simpl; [reflexivity|].
  destruct (f a) eqn:Fa, (g a) eqn:Ga; simpl; rewrite ?Fa, ?Ga, ?IH;
    reflexivity.
Qed.

Lemma filter_and {A} (f g : A -> bool) l :
  filter f (filter g l) = filter (fun a => g a && f a) l.
Proof.
  induction l as [|a l IH]; simpl; [reflexivity|].
  destruct (g a); simpl; [destruct (f a)|]; now rewrite IH.
Qed.

Lemma filter_drop (f : string -> bool) x m :
  f x = false -> filter f (filter (fun y => negb (y =? x)) m) = filter f m.
Proof.
  intros Fx. induction m as [|y m IH]; simpl; [reflexivity|].
  destruct (String.eqb_spec y x) as [->|N]; simpl.
  - now rewrite Fx.
  - now rewrite IH.
Qed.

Lemma dedup_filter f l : dedup (filter f l) = filter f (dedup l).
Proof.
  induction l as [|x l IH]; simpl; [reflexivity|].
  destruct (f x) eqn:Fx; simpl; rewrite ?Fx, IH.
  - f_equal. apply filter_comm.
  - symmetry. now apply filter_drop.
Qed.

Lemma for_pollutants_keys pollutants body results d :
  result (for_pollutants pollutants body results) = Return d ->
  keys d
  = (keys results
     ++ dedup (filter (fun p => negb (existsb (String.eqb p) (keys results)))
                      pollutants))%list.
Proof.
  revert results. induction pollutants as [|q rest IH]; intros results H.
  - simpl in *. injection H as <-. now rewrite app_nil_r.
  - simpl in H. rewrite result_bind in H.
    destruct (result (body q)) as [v|e]; [|discriminate].
    rewrite (IH _ H), keys_dict_set. simpl.
    destruct (existsb (String.eqb q) (keys results)) eqn:Eq; simpl;
      [reflexivity|].
    rewrite <- app_assoc. simpl. do 2 f_equal.
    rewrite <- dedup_filter, filter_and. f_equal.
    apply filter_ext. intros p.
    rewrite existsb_app. simpl. now rewrite orb_false_r, negb_orb.
Qed.

Lemma dedup_In l p : In p (dedup l) <-> In p l.
Proof.
  induction l as [|x l IH]; simpl; [tauto|].
  rewrite filter_In, IH, negb_true_iff.
  destruct (String.eqb_spec p x) as [->|N]; intuition congruence.
Qed.

Lemma dedup_NoDup l : NoDup (dedup l).
Proof.
  induction l as [|x l IH]; simpl; constructor.
  - rewrite filter_In, String.eqb_refl. intros [_ H]. discriminate.
  - now apply NoDup_filter.
Qed.

Section Keys.

Variable fs : string -> option DataFrame.
Variable parse_float : string -> option float.
Variable float_pow : float -> Z -> outcome float.

(** X9 -- The keys of an estimate are the requested pollutants, each once,
    in the order of their first request: a pollutant requested twice has
    one entry, and no key is added or dropped. *)
Theorem estimate_keys pollutants v_actual v_max P engine type status buoy
    (is_man : bool) valve_type rpm year E :
  result (compute_E fs parse_float float_pow pollutants v_actual v_max P engine
            type status buoy is_man valve_type rpm year) = Return E ->
  keys E = dedup pollutants
  /\ NoDup (keys E)
  /\ forall p, In p (keys E) <-> In p pollutants.
Proof.
  intros H.
  assert (K : keys E = dedup pollutants).
  { unfold compute_E in H. bind_inv H. bind_inv H.
    destruct is_man.
    - bind_inv H. bind_inv H. unfold emissions in H.
      rewrite (for_pollutants_keys _ _ _ _ H). simpl.
      f_equal. clear. induction pollutants as [|q l IH]; simpl; congruence.
    - bind_inv H. bind_inv H. bind_inv H. unfold emissions in H.
      rewrite (for_pollutants_keys _ _ _ _ H). simpl.
      f_equal. clear. induction pollutants as [|q l IH]; simpl; congruence. }
  rewrite K. split; [reflexivity|]. split; [apply dedup_NoDup|].
  intros p. apply dedup_In.
Qed.

End Keys.

(** NOx requested twice, around CO. *)
Lemma estimate_keys_on_fixture :
  keys [("NOx", 5737.5%float); ("CO", 1259.9999999999998%float)]
  = dedup ["NOx"; "CO"; "NOx"].
Proof.
  exact (proj1 (estimate_keys Fixture.table Fixture.parse Fixture.pow
                  ["NOx"; "CO"; "NOx"] 10 20 1000 "main" "container" "trip"
                  (VNum 0) true "C3" 100 2010
                  [("NOx", 5737.5%float); ("CO", 1259.9999999999998%float)]
                  eq_refl)).
Defined.

(** ** The [Load] column *)

Lemma col_index_lt name cols i : col_index name cols = Some i -> i < List.length cols.
Proof.
  revert i. induction cols as [|c cols IH]; simpl; intros i; [discriminate|].
  destruct (String.eqb c name); [intros [= <-]; lia|].
  destruct (col_index name cols) as [k|]; [|discriminate].
  intros [= <-]. specialize (IH k eq_refl). lia.
Qed.

Lemma col_index_inj a b cols i :
  col_index a cols = Some i -> col_index b cols = Some i -> a = b.
Proof.
  revert i. induction cols as [|c cols IH]; simpl; intros i; [discriminate|].
  destruct (String.eqb_spec c a) as [Ea|Na], (String.eqb_spec c b) as [Eb|Nb].
  - congruence.
  - intros [= <-]. now destruct (col_index b cols).
  - destruct (col_index a cols); [intros [= <-]|]; discriminate.
  - destruct (col_index a cols) as [ka|]; [|discriminate].
    destruct (col_index b cols) as [kb|]; [|discriminate].
    simpl. intros [= <-] [= ->]. now apply (IH ka).
Qed.

Lemma cell_set_nth i k v row : k <> i -> cell k (set_nth i v row) = cell k row.
Proof.
  unfold cell. revert k row. induction i as [|i IH]; intros k row N.
  - destruct k; [congruence|]. destruct row; simpl; [now destruct k|reflexivity].
  - destruct row as [|c row]; simpl.
    + destruct k; [reflexivity|]. rewrite IH by congruence. now destruct k.
    + destruct k; [reflexivity|]. apply IH. congruence.
Qed.

Lemma set_cells_length i rs s :
  List.length s = List.length rs -> List.length (set_cells i rs s) = List.length rs.
Proof.
  revert s. induction rs as [|r rs IH]; intros [|v s]; simpl; try discriminate;
    [reflexivity|].
  intros [= H]. now rewrite IH.
Qed.

Lemma set_cells_other i k rs s :
  k <> i -> List.length s = List.length rs ->
  map (cell k) (set_cells i rs s) = map (cell k) rs.
Proof.
  intros N. revert s. induction rs as [|r rs IH]; intros [|v s]; simpl;
    try discriminate; [reflexivity|].
  intros [= H]. now rewrite IH, cell_set_nth.
Qed.

Lemma astype_float_length parse_float s load :
  result (astype_float parse_float s) = Return load -> List.length load = List.length s.
Proof.
  revert load. induction s as [|[t|x] s IH]; simpl; intros load H.
  - now injection H as <-.
  - destruct (parse_float (remove_percent t)); [|discriminate].
    bind_inv H. injection H as <-. simpl. now rewrite (IH a).
  - bind_inv H. injection H as <-. simpl. now rewrite (IH a).
Qed.

(** What [load_column] keeps of the table it is given. *)
Lemma load_column_shape parse_float df tbl load :
  result (load_column parse_float df) = Return (tbl, load) ->
  columns tbl = columns df
  /\ List.length (rows tbl) = List.length (rows df)
  /\ List.length load = List.length (rows df)
  /\ forall name, name <> "Load" -> series tbl name = series df name.
Proof.
  unfold load_column, series at 1. intros H.
  destruct (col_index "Load" (columns df)) as [i|] eqn:Ei; [|discriminate].
  rewrite bind_ret_l in H.
  destruct (dtype_object _).
  - bind_inv H. injection H as <- <-.
    pose proof (astype_float_length _ _ _ Ha) as L. rewrite length_map in L.
    unfold set_column. rewrite Ei. simpl.
    assert (L' : List.length (map VNum a) = List.length (rows df))
      by now rewrite length_map.
    repeat split; trivial.
    + now apply set_cells_length.
    + intros name N. unfold series. simpl.
      destruct (col_index name (columns df)) as [k|] eqn:Ek; [|reflexivity].
      rewrite set_cells_other; trivial.
      intros ->. apply N. symmetry. exact (col_index_inj _ _ _ _ Ei Ek).
  - injection H as <- <-. unfold numeric. now rewrite !length_map.
Qed.

(** X10 -- Stripping the percent signs of the [Load] column keeps the shape
    of the table: the same columns (a pollutant is a column after the
    conversion exactly when it is one in the file), the same number of rows,
    one load per row, and every column other than [Load] cell for cell as in
    the file. *)
Theorem load_conversion_keeps_table parse_float df tbl load :
  result (load_column parse_float df) = Return (tbl, load) ->
  columns tbl = columns df
  /\ (forall p, in_columns p tbl = in_columns p df)
  /\ List.length (rows tbl) = List.length (rows df)
  /\ List.length load = List.length (rows df)
  /\ forall name, name <> "Load" -> series tbl name = series df name.
Proof.
  intros H. destruct (load_column_shape _ _ _ _ H) as (Hc & Hr & Hl & Hs).
  repeat split; trivial.
  intros p. unfold in_columns. now rewrite Hc.
Qed.

Lemma load_conversion_on_fixture :
  columns (set_column Fixture.LLA_non_man "Load" [VNum 2; VNum 10; VNum 20])
  = columns Fixture.LLA_non_man
  /\ series (set_column Fixture.LLA_non_man "Load" [VNum 2; VNum 10; VNum 20])
       "NOx"
     = series Fixture.LLA_non_man "NOx".
Proof.
  destruct (load_conversion_keeps_table Fixture.parse Fixture.LLA_non_man
              (set_column Fixture.LLA_non_man "Load" [VNum 2; VNum 10; VNum 20])
              [2; 10; 20]%float eq_refl) as (Hc & _ & _ & _ & Hs).
  split; [exact Hc|]. apply Hs. discriminate.
Defined.

(** ** Lookups that cannot fail *)

Lemma loc_row tbl i p k :
  col_index p (columns tbl) = Some k -> i < List.length (rows tbl) ->
  exists r, In r (rows tbl) /\ loc tbl i p = ret (cell k r).
Proof.
  intros Hk Hi. unfold loc. rewrite (series_cells _ _ _ Hk), bind_ret_l.
  destruct (nth_error (rows tbl) i) as [r|] eqn:Er.
  - exists r. split; [eapply nth_error_In, Er|].
    now rewrite nth_error_map, Er.
  - apply nth_error_None in Er. lia.
Qed.

Lemma nearest_value_returns parse_float tbl load target p k :
  List.length load = List.length (rows tbl) ->
  col_index p (columns tbl) = Some k ->
  (forall r, In r (rows tbl) -> exists x, cell k r = VNum x) ->
  forallb is_nan (abs_diff load target) = false ->
  returns (nearest_idx <- idxmin (abs_diff load target) ;;
           val <- loc tbl nearest_idx p ;;
           py_float parse_float val).
Proof.
  intros Hlen Hk Hnum Hnan.
  destruct (idxmin_returns _ Hnan) as [i Hi].
  destruct (idxmin_nearest _ _ Hi) as (di & Hdi & _).
  assert (Hlt : i < List.length (rows tbl)).
  { rewrite <- Hlen. unfold abs_diff in Hdi.
    rewrite <- (length_map (fun l => PrimFloat.abs (l - target)%float) load).
    apply nth_error_Some. congruence. }
  destruct (loc_row _ _ _ _ Hk Hlt) as (r & Hr & Hloc).
  destruct (Hnum r Hr) as [x Hx].
  exists x. now rewrite result_bind, Hi, Hloc, bind_ret_l, Hx.
Qed.

Section NumericTables.

Variable fs : string -> option DataFrame.
Variable parse_float : string -> option float.

(** X11 -- On a table whose requested columns hold numbers, with at least
    one tabulated load at a defined distance from [lf * 100] (the table is
    not empty and neither the load factor nor every load is NaN), the
    low-load adjustment and the load-adjustment factor raise nothing: they
    return a dictionary with an entry for every requested pollutant. *)
Theorem corrections_return_on_numeric_tables pollutants lf :
  (forall lla_table tbl load,
      fs "data/LLA_non_man.csv" = Some lla_table ->
      result (load_column parse_float lla_table) = Return (tbl, load) ->
      forallb is_nan (abs_diff load (lf * 100)%float) = false ->
      (forall p k r, In p pollutants -> col_index p (columns tbl) = Some k ->
                     In r (rows tbl) -> exists x, cell k r = VNum x) ->
      exists d,
        result (compute_lla fs parse_float pollutants lf) = Return d
        /\ covers d pollutants)
  /\ (forall valve_type filename df tbl load,
        laf_filename valve_type = ret filename ->
        fs filename = Some df ->
        result (load_column parse_float df) = Return (tbl, load) ->
        forallb is_nan (abs_diff load (lf * 100)%float) = false ->
        (forall p k r, In p pollutants -> col_index p (columns tbl) = Some k ->
                       In r (rows tbl) -> exists x, cell k r = VNum x) ->
        exists d,
          result (compute_laf_man fs parse_float pollutants lf valve_type)
          = Return d
          /\ covers d pollutants).
Proof.
  split.
  - intros lla_table tbl load Hfs Hload Hnan Hnum.
    destruct (load_column_shape _ _ _ _ Hload) as (_ & Hr & Hl & _).
    unfold compute_lla. rewrite Hfs, result_bind, Hload.
    destruct (for_pollutants_returns pollutants
                (lla_of parse_float tbl load (lf * 100)%float (series_max load))
                []) as [d Hd].
    + intros p Hp. unfold lla_of.
      destruct (in_columns p tbl) eqn:Hc; simpl; [|now eexists].
      destruct (series_max load <? lf * 100)%float; [now eexists|].
      destruct (in_columns_index _ _ Hc) as [k Hk].
      apply nearest_value_returns with k; trivial; [congruence|].
      intros r. now apply Hnum with p.
    + exists d. split; [exact Hd|]. now apply for_pollutants_covers in Hd.
  - intros valve_type filename df tbl load Hv Hfs Hload Hnan Hnum.
    destruct (load_column_shape _ _ _ _ Hload) as (_ & Hr & Hl & _).
    unfold compute_laf_man, read_csv.
    rewrite Hv, bind_ret_l, Hfs, bind_ret_l, result_bind, Hload.
    destruct (for_pollutants_returns pollutants
                (laf_of parse_float tbl load (lf * 100)%float valve_type)
                []) as [d Hd].
    + intros p Hp. unfold laf_of.
      destruct (in_columns p tbl) eqn:Hc; simpl; [|now eexists].
      destruct (in_columns_index _ _ Hc) as [k Hk].
      apply nearest_value_returns with k; trivial; [congruence|].
      intros r. now apply Hnum with p.
    + exists d. split; [exact Hd|]. now apply for_pollutants_covers in Hd.
Qed.

End NumericTables.

(** The reference tables hold numbers in the columns NOx and CO. *)
Lemma corrections_return_on_fixture :
  (exists d,
      result (compute_lla Fixture.table Fixture.parse ["NOx"; "SO2"; "CO"] 0.125)
      = Return d /\ covers d ["NOx"; "SO2"; "CO"])
  /\ (exists d,
        result (compute_laf_man Fixture.table Fixture.parse
                  ["NOx"; "SO2"; "CO"] 0.125 "C3")
        = Return d /\ covers d ["NOx"; "SO2"; "CO"]).
Proof.
  split.
  - apply (proj1 (corrections_return_on_numeric_tables Fixture.table
                    Fixture.parse ["NOx"; "SO2"; "CO"] 0.125)
             Fixture.LLA_non_man
             (set_column Fixture.LLA_non_man "Load" [VNum 2; VNum 10; VNum 20])
             [2; 10; 20]%float eq_refl eq_refl eq_refl).
    intros p k r [<-|[<-|[<-|[]]]] Hk; vm_compute in Hk; try discriminate;
      injection Hk as <-; intros [<-|[<-|[<-|[]]]]; eexists; reflexivity.
  - apply (proj2 (corrections_return_on_numeric_tables Fixture.table
                    Fixture.parse ["NOx"; "SO2"; "CO"] 0.125)
             "C3" "data/LAF_MAN_C3.csv" Fixture.LAF_MAN_C3 Fixture.LAF_MAN_C3
             [10; 12; 13; 50]%float eq_refl eq_refl eq_refl eq_refl).
    intros p k r [<-|[<-|[<-|[]]]] Hk; vm_compute in Hk; try discriminate;
      injection Hk as <-; intros [<-|[<-|[<-|[<-|[]]]]]; eexists; reflexivity.
Defined.

(** ** Ties between nearest rows *)

Lemma SFltb_below v b x :
  SFltb v b = true -> SFltb x b = false -> x <> S754_nan -> SFltb v x = true.
Proof.
  unfold SFltb.
  destruct v as [sv|sv| |sv mv ev], b as [sb|sb| |sb mb eb],
           x as [sx|sx| |sx mx ex]; simpl;
    change (Pos.compare_cont Eq) with Pos.compare; SFcases.
Qed.

Lemma not_nan_spec x : is_nan x = false -> Prim2SF x <> S754_nan.
Proof.
  unfold is_nan. rewrite FloatAxioms.eqb_spec. intros H E.
  rewrite E in H. discriminate.
Qed.

Lemma ltb_below v b x :
  (v <? b)%float = true -> (x <? b)%float = false -> is_nan x = false ->
  (v <? x)%float = true.
Proof.
  rewrite !FloatAxioms.ltb_spec. intros Hv Hx Hn.
  apply SFltb_below with (Prim2SF b); trivial. now apply not_nan_spec.
Qed.

Lemma infinity_ltb y : (PrimFloat.infinity <? y)%float = false.
Proof.
  rewrite FloatAxioms.ltb_spec.
  change (Prim2SF PrimFloat.infinity) with (S754_infinity false).
  unfold SFltb. now destruct (Prim2SF y) as [[]|[]| |[] ? ?].
Qed.

Lemma fill_nan_not_nan x : is_nan (fill_nan x) = false.
Proof.
  unfold fill_nan. destruct (is_nan x) eqn:E; [reflexivity|exact E].
Qed.

Lemma fill_nan_id x : is_nan x = false -> fill_nan x = x.
Proof. unfold fill_nan. now intros ->. Qed.

Lemma argmin_from_first s :
  (forall y, In y s -> is_nan y = false) ->
  forall best_i best i,
    argmin_from best_i best i s = best_i
    \/ exists k v,
         argmin_from best_i best i s = (i + k)%nat
         /\ nth_error s k = Some v /\ (v <? best)%float = true
         /\ forall k' y, k' < k -> nth_error s k' = Some y ->
                         (v <? y)%float = true.
Proof.
  induction s as [|x s IH]; intros Hnan best_i best i; simpl; [now left|].
  assert (Hs : forall y, In y s -> is_nan y = false)
    by (intros y Hy; apply Hnan; now right).
  destruct (x <? best)%float eqn:Ex.
  - right. destruct (IH Hs i x (S i)) as [Hr|(k & v & Hr & Hk & Hv & Hfirst)].
    + exists 0, x. rewrite Hr, Nat.add_0_r. repeat split; trivial.
      intros k' y Hlt. lia.
    + exists (S k), v. rewrite Hr, Nat.add_succ_r. simpl.
      repeat split; trivial; [now apply ltb_trans with x|].
      intros [|k'] y Hlt Hy; simpl in Hy.
      * now injection Hy as <-.
      * apply (Hfirst k'); [lia|exact Hy].
  - destruct (IH Hs best_i best (S i)) as [Hr|(k & v & Hr & Hk & Hv & Hfirst)];
      [now left|right].
    exists (S k), v. rewrite Hr, Nat.add_succ_r. simpl.
    repeat split; trivial.
    intros [|k'] y Hlt Hy; simpl in Hy.
    + injection Hy as <-. apply ltb_below with best; trivial.
      apply Hnan. now left.
    + apply (Hfirst k'); [lia|exact Hy].
Qed.

(** [idxmin] answers with the first of the rows that no other row beats. *)
Lemma idxmin_earliest s i : result (idxmin s) = Return i -> earliest s i.
Proof.
  unfold idxmin. destruct s as [|x s]; [discriminate|].
  destruct (forallb is_nan (x :: s)); [discriminate|].
  simpl. intros [= <-] j dj Hj Hdj Hn.
  destruct (argmin_from_first (map fill_nan s)) with (best_i := 0)
    (best := fill_nan x) (i := 1) as [Hr|(k & v & Hr & Hk & Hv & Hfirst)].
  { intros y Hy. apply in_map_iff in Hy. destruct Hy as (z & <- & _).
    apply fill_nan_not_nan. }
  - rewrite Hr in Hj. lia.
  - rewrite Hr in *. simpl in *.
    rewrite nth_error_map in Hk.
    destruct (nth_error s k) as [d|] eqn:Ed; [|discriminate].
    injection Hk as <-.
    assert (Hd : fill_nan d = d).
    { apply fill_nan_id. destruct (is_nan d) eqn:Nd; [|reflexivity].
      unfold fill_nan in Hv at 1. rewrite Nd, infinity_ltb in Hv.
      discriminate. }
    rewrite Hd in *. exists d. split; [reflexivity|].
    destruct j as [|j']; simpl in Hdj.
    + injection Hdj as <-. now rewrite (fill_nan_id _ Hn) in Hv.
    + apply (Hfirst j' dj); [lia|].
      rewrite nth_error_map, Hdj. simpl. now rewrite (fill_nan_id _ Hn).
Qed.

Section Ties.

Variable fs : string -> option DataFrame.
Variable parse_float : string -> option float.

Lemma earliest_nearest_value tbl load target p x :
  result (nearest_idx <- idxmin (abs_diff load target) ;;
          val <- loc tbl nearest_idx p ;;
          py_float parse_float val) = Return x ->
  exists i v,
    nearest (abs_diff load target) i
    /\ earliest (abs_diff load target) i
    /\ result (loc tbl i p) = Return v
    /\ result (py_float parse_float v) = Return x.
Proof.
  intros H. bind_inv H. bind_inv H.
  exists a, a0. split; [now apply idxmin_nearest|].
  split; [now apply idxmin_earliest|]. now split.
Qed.

(** X12 -- Ties between equidistant rows go to the first: the row at which
    the load-adjustment factor is read, and the low-load adjustment within
    the range of the table, is a nearest row that is strictly closer to
    [lf * 100] than every row before it. *)
Theorem nearest_row_ties_go_to_the_first pollutants lf p :
  In p pollutants ->
  (forall lla_table tbl load d,
      fs "data/LLA_non_man.csv" = Some lla_table ->
      result (load_column parse_float lla_table) = Return (tbl, load) ->
      in_columns p tbl = true ->
      (series_max load <? lf * 100)%float = false ->
      result (compute_lla fs parse_float pollutants lf) = Return d ->
      exists x i v,
        dict_get d p = Some x
        /\ nearest (abs_diff load (lf * 100)) i
        /\ earliest (abs_diff load (lf * 100)) i
        /\ result (loc tbl i p) = Return v
        /\ result (py_float parse_float v) = Return x)
  /\ (forall valve_type filename df tbl load d,
        laf_filename valve_type = ret filename ->
        fs filename = Some df ->
        result (load_column parse_float df) = Return (tbl, load) ->
        in_columns p tbl = true ->
        result (compute_laf_man fs parse_float pollutants lf valve_type)
        = Return d ->
        exists x i v,
          dict_get d p = Some x
          /\ nearest (abs_diff load (lf * 100)) i
          /\ earliest (abs_diff load (lf * 100)) i
          /\ result (loc tbl i p) = Return v
          /\ result (py_float parse_float v) = Return x).
Proof.
  intros Hp. split.
  - intros lla_table tbl load d Hfs Hload Hcol Hmax Hd.
    unfold compute_lla in Hd. rewrite Hfs in Hd.
    rewrite result_bind, Hload in Hd.
    destruct (for_pollutants_result _ _ _ _ Hd) as [Hin _].
    destruct (Hin p Hp) as (x & Hx & Hg).
    unfold lla_of in Hx. rewrite Hcol, Hmax in Hx. cbn [negb] in Hx.
    destruct (earliest_nearest_value _ _ _ _ _ Hx)
      as (i & v & Hn & He & Hl & Hf).
    exists x, i, v. auto.
  - intros valve_type filename df tbl load d Hv Hfs Hload Hcol Hd.
    unfold compute_laf_man, read_csv in Hd.
    rewrite Hv, bind_ret_l, Hfs, bind_ret_l in Hd.
    rewrite result_bind, Hload in Hd.
    destruct (for_pollutants_result _ _ _ _ Hd) as [Hin _].
    destruct (Hin p Hp) as (x & Hx & Hg).
    unfold laf_of in Hx. rewrite Hcol in Hx. cbn [negb] in Hx.
    destruct (earliest_nearest_value _ _ _ _ _ Hx)
      as (i & v & Hn & He & Hl & Hf).
    exists x, i, v. auto.
Qed.

End Ties.

(** At load factor 0.125 the rows 12 and 13 of the reference table are both
    at distance 0.5 from 12.5: the factor of NOx is read at row 12. *)
Lemma nearest_row_ties_on_fixture :
  exists i v,
    nearest (abs_diff [10; 12; 13; 50]%float (0.125 * 100)%float) i
    /\ earliest (abs_diff [10; 12; 13; 50]%float (0.125 * 100)%float) i
    /\ result (loc Fixture.LAF_MAN_C3 i "NOx") = Return v
    /\ result (py_float Fixture.parse v) = Return 1.25%float.
Proof.
  destruct (proj2 (nearest_row_ties_go_to_the_first Fixture.table Fixture.parse
                     ["NOx"] 0.125 "NOx" (or_introl eq_refl))
              "C3" "data/LAF_MAN_C3.csv" Fixture.LAF_MAN_C3
              Fixture.LAF_MAN_C3 [10; 12; 13; 50]%float
              [("NOx", 1.25%float)]
              eq_refl eq_refl eq_refl eq_refl eq_refl)
    as (x & i & v & Hx & Hn & He & Hl & Hf).
  injection Hx as <-. exists i, v. auto.
Defined.

(** ** The emission-factor adjustment *)

Section Adjustment.

Variable fs : string -> option DataFrame.
Variable parse_float : string -> option float.

(** One iteration of the loop of [compute_efa_non_man], row by row. *)
Lemma efa_of_row df valve_type p i :
  col_index "Pollutant" (columns df) = Some i ->
  efa_of parse_float df valve_type p
  = match find (fun r => py_eq (cell i r) (VStr p)) (rows df) with
    | None => emit (WarnEFARow p) ;; ret 1%float
    | Some r =>
        match col_index valve_type (columns df) with
        | Some k => py_float parse_float (cell k r)
        | None => raise (KeyError valve_type)
        end
    end.
Proof.
  intros Hi. unfold efa_of.
  rewrite (series_cells _ _ _ Hi), bind_ret_l, map_map, empty_select.
  destruct (find _ (rows df)) as [r|] eqn:Ef; [|reflexivity].
  destruct (col_index valve_type (columns df)) as [k|] eqn:Ek.
  - rewrite (values0_select _ _ _ _ Ek), Ef. apply bind_ret_l.
  - rewrite values0_select_missing; [reflexivity|].
    unfold in_columns. now rewrite Ek.
Qed.

(** X13 -- The emission-factor adjustment of a pollutant is the entry of
    the valve-type column in the first row of the table whose [Pollutant]
    is that pollutant; the load factor plays no part in it. *)
Theorem efa_is_first_matching_row df valve_type i k pollutants d p r :
  fs "data/EFA_non_man.csv" = Some df ->
  col_index "Pollutant" (columns df) = Some i ->
  col_index valve_type (columns df) = Some k ->
  result (compute_efa_non_man fs parse_float pollutants valve_type) = Return d ->
  In p pollutants ->
  find (fun r => py_eq (cell i r) (VStr p)) (rows df) = Some r ->
  exists v, result (py_float parse_float (cell k r)) = Return v
            /\ dict_get d p = Some v.
Proof.
  intros Hfs Hi Hk Hd Hp Hr.
  unfold compute_efa_non_man, read_csv in Hd.
  rewrite Hfs, bind_ret_l in Hd.
  destruct (negb _); [discriminate|].
  destruct (for_pollutants_result _ _ _ _ Hd) as [Hin _].
  destruct (Hin p Hp) as (v & Hv & Hg).
  exists v. split; [|exact Hg].
  now rewrite (efa_of_row _ _ _ _ Hi), Hr, Hk in Hv.
Qed.

End Adjustment.

Lemma efa_first_row_on_fixture :
  exists v, result (py_float Fixture.parse (VNum 0.75)) = Return v
            /\ dict_get [("NOx", 1.25%float); ("CO", 0.75%float)] "CO" = Some v.
Proof.
  apply (efa_is_first_matching_row Fixture.table Fixture.parse
           Fixture.EFA_non_man "C3" 0 2 ["NOx"; "CO"]
           [("NOx", 1.25%float); ("CO", 0.75%float)] "CO"
           [VStr "CO"; VNum 0.5; VNum 0.75]);
    try reflexivity.
  right. left. reflexivity.
Defined.

(** ** Nearest-neighbour corrections and the range of the table *)

Lemma SFnot_ltb_leb a b :
  a <> S754_nan -> b <> S754_nan -> SFltb b a = false -> SFleb a b = true.
Proof.
  unfold SFltb, SFleb.
  destruct a as [sa|sa| |sa ma ea], b as [sb|sb| |sb mb eb]; simpl;
    change (Pos.compare_cont Eq) with Pos.compare; SFcases.
Qed.

Lemma not_ltb_leb x y :
  is_nan x = false -> is_nan y = false ->
  (y <? x)%float = false -> (x <=? y)%float = true.
Proof.
  rewrite FloatAxioms.ltb_spec, FloatAxioms.leb_spec. intros Hx Hy.
  apply SFnot_ltb_leb; now apply not_nan_spec.
Qed.

(** [series_max] is one of the loads, unless it is NaN. *)
Lemma series_max_cases s : is_nan (series_max s) = true \/ In (series_max s) s.
Proof.
  induction s as [|y s IH]; simpl; [now left|].
  destruct (is_nan y) eqn:Ny; [tauto|].
  destruct (is_nan (series_max s)) eqn:Nm; [right; now left|].
  destruct (series_max s <? y)%float; [right; now left|].
  destruct IH as [H|H]; [discriminate|tauto].
Qed.

(** The greatest tabulated load: a load that is a number, and that no load
    exceeds ([series_max_upper]). *)
Lemma series_max_in s :
  (exists l, In l s /\ is_nan l = false) ->
  In (series_max s) s /\ is_nan (series_max s) = false.
Proof.
  intros (l & Hl & Nl).
  assert (N : is_nan (series_max s) = false).
  { destruct (is_nan (series_max s)) eqn:E; [|reflexivity].
    rewrite (series_max_nan s E l Hl) in Nl. discriminate. }
  split; [|exact N].
  destruct (series_max_cases s) as [H|H]; [congruence|exact H].
Qed.

Lemma beyond_table_max load t :
  beyond_table load t -> (series_max load <? t)%float = true.
Proof.
  intros [Hex Hall]. destruct (series_max_in load Hex) as [Hin Hn].
  now apply Hall.
Qed.

Lemma within_table_max load t :
  within_table load t -> (series_max load <? t)%float = false.
Proof.
  intros (l & Hl & Nl & Hlt).
  destruct (series_max load <? t)%float eqn:E; [|reflexivity].
  pose proof (ltb_below _ _ _ E Hlt Nl) as H.
  rewrite (series_max_upper load l Hl) in H. discriminate.
Qed.

(** The row of [idxmin], among the distances with NaN filled by [+inf]. *)
Lemma idxmin_filled s i :
  result (idxmin s) = Return i ->
  exists di,
    nth_error s i = Some di
    /\ forall j dj, nth_error s j = Some dj ->
                    (fill_nan dj <? fill_nan di)%float = false.
Proof.
  unfold idxmin. destruct s as [|x s]; [discriminate|].
  destruct (forallb is_nan (x :: s)); [discriminate|].
  simpl. intros [= <-].
  destruct (argmin_from_spec (map fill_nan s) 0 (fill_nan x) 1)
    as (v & Hr & Hall).
  assert (Hv : exists di, nth_error (x :: s)
                 (argmin_from 0 (fill_nan x) 1 (map fill_nan s)) = Some di
               /\ v = fill_nan di
               /\ (fill_nan x <? v)%float = false).
  { destruct Hr as [[-> ->]|(k & -> & Hk & Hlt)].
    - exists x. repeat split. apply ltb_irrefl.
    - simpl. rewrite nth_error_map in Hk.
      destruct (nth_error s k) as [d|]; [|discriminate].
      injection Hk as <-. exists d. repeat split. now apply ltb_asym. }
  destruct Hv as (di & Hi & -> & Hx).
  exists di. split; [exact Hi|].
  intros [|j] dj Hj; simpl in Hj.
  - now injection Hj as <-.
  - apply Hall, in_map. eapply nth_error_In, Hj.
Qed.

(** With a row at a finite distance, the row of [idxmin] has the least
    distance. *)
Lemma idxmin_least s i :
  result (idxmin s) = Return i -> some_finite s -> least s i.
Proof.
  intros H (j0 & d0 & Hj0 & Hfin).
  destruct (idxmin_filled _ _ H) as (di & Hi & Hall).
  assert (N0 : is_nan d0 = false).
  { destruct (is_nan d0) eqn:E; [|reflexivity].
    rewrite (nan_ltb_l _ _ E) in Hfin. discriminate. }
  assert (Ni : is_nan di = false).
  { destruct (is_nan di) eqn:E; [|reflexivity].
    specialize (Hall j0 d0 Hj0).
    rewrite (fill_nan_id _ N0) in Hall. unfold fill_nan in Hall.
    rewrite E in Hall. congruence. }
  exists di. repeat split; trivial.
  intros j dj Hj Nj. apply not_ltb_leb; trivial.
  specialize (Hall j dj Hj).
  now rewrite (fill_nan_id _ Nj), (fill_nan_id _ Ni) in Hall.
Qed.

Section Nearest.

Variable fs : string -> option DataFrame.
Variable parse_float : string -> option float.

(** A value read at the nearest row of a table. *)
Lemma nearest_value tbl load target p x :
  result (nearest_idx <- idxmin (abs_diff load target) ;;
          val <- loc tbl nearest_idx p ;;
          py_float parse_float val) = Return x ->
  exists i v,
    nearest (abs_diff load target) i
    /\ (some_finite (abs_diff load target) -> least (abs_diff load target) i)
    /\ result (loc tbl i p) = Return v
    /\ result (py_float parse_float v) = Return x.
Proof.
  intros H. bind_inv H. bind_inv H.
  exists a, a0. split; [now apply idxmin_nearest|].
  split; [now apply idxmin_least|]. now split.
Qed.

(** C3 -- Nearest-neighbour correction lookup.  For a requested pollutant
    [p] that is a column of the table, [load] being the numbers of its
    [Load] column and the distances being [|load - lf * 100|] row by row.
    When [compute_lla] returns: if [lf * 100] is strictly above every
    tabulated load (that is, above the greatest of them), however far, the
    multiplier of [p] is exactly 1.0; if some tabulated load is not below
    [lf * 100], the multiplier is the value of column [p] at a row [i] that
    no row beats and, as soon as some row is at a finite distance, whose
    distance is a number, at most every other distance.  When
    [compute_laf_man] returns, the multiplier of [p] is the value of column
    [p] at such a row, whatever the load factor. *)
Theorem nearest_neighbour_lookup pollutants lf p :
  In p pollutants ->
  (forall lla_table tbl load d,
      fs "data/LLA_non_man.csv" = Some lla_table ->
      result (load_column parse_float lla_table) = Return (tbl, load) ->
      in_columns p tbl = true ->
      result (compute_lla fs parse_float pollutants lf) = Return d ->
      exists x,
        dict_get d p = Some x
        /\ (beyond_table load (lf * 100)%float -> x = 1%float)
        /\ (within_table load (lf * 100)%float ->
            exists i v,
              nearest (abs_diff load (lf * 100)) i
              /\ (some_finite (abs_diff load (lf * 100)) ->
                  least (abs_diff load (lf * 100)) i)
              /\ result (loc tbl i p) = Return v
              /\ result (py_float parse_float v) = Return x))
  /\ (forall valve_type filename df tbl load d,
        laf_filename valve_type = ret filename ->
        fs filename = Some df ->
        result (load_column parse_float df) = Return (tbl, load) ->
        in_columns p tbl = true ->
        result (compute_laf_man fs parse_float pollutants lf valve_type)
        = Return d ->
        exists x i v,
          dict_get d p = Some x
          /\ nearest (abs_diff load (lf * 100)) i
          /\ (some_finite (abs_diff load (lf * 100)) ->
              least (abs_diff load (lf * 100)) i)
          /\ result (loc tbl i p) = Return v
          /\ result (py_float parse_float v) = Return x).
Proof.
  intros Hp. split.
  - intros lla_table tbl load d Hfs Hload Hcol Hd.
    unfold compute_lla in Hd. rewrite Hfs in Hd.
    rewrite result_bind, Hload in Hd.
    destruct (for_pollutants_result _ _ _ _ Hd) as [Hin _].
    destruct (Hin p Hp) as (x & Hx & Hg).
    exists x. split; [exact Hg|].
    unfold lla_of in Hx. rewrite Hcol in Hx. cbn [negb] in Hx.
    split; intros Hrange.
    + rewrite (beyond_table_max _ _ Hrange) in Hx. now injection Hx as <-.
    + rewrite (within_table_max _ _ Hrange) in Hx. now apply nearest_value.
  - intros valve_type filename df tbl load d Hv Hfs Hload Hcol Hd.
    unfold compute_laf_man, read_csv in Hd.
    rewrite Hv, bind_ret_l, Hfs, bind_ret_l in Hd.
    rewrite result_bind, Hload in Hd.
    destruct (for_pollutants_result _ _ _ _ Hd) as [Hin _].
    destruct (Hin p Hp) as (x & Hx & Hg).
    unfold laf_of in Hx. rewrite Hcol in Hx. cbn [negb] in Hx.
    destruct (nearest_value _ _ _ _ _ Hx) as (i & v & Hn & Hleast & Hl & Hf).
    exists x, i, v. auto.
Qed.

End Nearest.

(** On the reference tables.  At load factor 0.125, the load 20 is not below
    12.5: the low-load adjustment of NOx is read at the row of least distance
    (the row 10%, value 1.22).  At load factor 0.3, every load of 2, 10, 20
    is below 30: the adjustment is 1.0.  The load-adjustment factor at load
    factor 0.125 is read at a row of least distance among 10, 12, 13, 50
    (value 1.25). *)
Lemma nearest_neighbour_lookup_on_fixture :
  (exists i v,
      nearest (abs_diff [2; 10; 20]%float (0.125 * 100)%float) i
      /\ least (abs_diff [2; 10; 20]%float (0.125 * 100)%float) i
      /\ result (loc (set_column Fixture.LLA_non_man "Load"
                        [VNum 2; VNum 10; VNum 20]) i "NOx") = Return v
      /\ result (py_float Fixture.parse v) = Return 1.22%float)
  /\ (exists x, dict_get [("NOx", 1%float)] "NOx" = Some x /\ x = 1%float)
  /\ (exists i v,
        nearest (abs_diff [10; 12; 13; 50]%float (0.125 * 100)%float) i
        /\ least (abs_diff [10; 12; 13; 50]%float (0.125 * 100)%float) i
        /\ result (loc Fixture.LAF_MAN_C3 i "NOx") = Return v
        /\ result (py_float Fixture.parse v) = Return 1.25%float).
Proof.
  split; [|split].
  - destruct (proj1 (nearest_neighbour_lookup Fixture.table Fixture.parse
                       ["NOx"] 0.125 "NOx" (or_introl eq_refl))
                Fixture.LLA_non_man
                (set_column Fixture.LLA_non_man "Load" [VNum 2; VNum 10; VNum 20])
                [2; 10; 20]%float [("NOx", 1.22%float)]
                eq_refl eq_refl eq_refl eq_refl)
      as (x & Hx & _ & Hnear).
    injection Hx as <-.
    destruct Hnear as (i & v & Hn & Hleast & Hl & Hf).
    { exists 20%float. split; [simpl; tauto|]. split; reflexivity. }
    exists i, v. repeat split; trivial.
    apply Hleast. exists 0, 10.5%float. split; reflexivity.
  - destruct (proj1 (nearest_neighbour_lookup Fixture.table Fixture.parse
                       ["NOx"] 0.3 "NOx" (or_introl eq_refl))
                Fixture.LLA_non_man
                (set_column Fixture.LLA_non_man "Load" [VNum 2; VNum 10; VNum 20])
                [2; 10; 20]%float [("NOx", 1%float)]
                eq_refl eq_refl eq_refl eq_refl)
      as (x & Hx & Hbeyond & _).
    exists x. split; [exact Hx|]. apply Hbeyond. split.
    + exists 2%float. split; [simpl; tauto|reflexivity].
    + intros l [<-|[<-|[<-|[]]]] _; reflexivity.
  - destruct (proj2 (nearest_neighbour_lookup Fixture.table Fixture.parse
                       ["NOx"] 0.125 "NOx" (or_introl eq_refl))
                "C3" "data/LAF_MAN_C3.csv" Fixture.LAF_MAN_C3
                Fixture.LAF_MAN_C3 [10; 12; 13; 50]%float
                [("NOx", 1.25%float)]
                eq_refl eq_refl eq_refl eq_refl eq_refl)
      as (x & i & v & Hx & Hn & Hleast & Hl & Hf).
    injection Hx as <-. exists i, v. repeat split; trivial.
    apply Hleast. exists 0, 2.5%float. split; reflexivity.
Defined.
